(** * nice_tools: a shallow embedding of the Python sources

    The development follows the layout of the package:
    - [Py]            the fragment of Python the sources rely on (values,
                      exception classes, outcomes of calls, text rendering);
    - [func_tools]    [catch_exception_decorator];
    - [thread_tools]  [run_in_thread], [run_in_threadpool] and the decorators;
    - [logger_tools]  [_make_message], [ColoredFormatter], [TelegramHandler]
                      and the constructor of [NiceLogger];
    - [logger_tools_rest]  [TelegramHandler.emit] and [format], the state
                           of a [BotLogger];
    - [func_tools_rest]    [timeout_decorator];
    - [http_base_client]   [_get_kwargs], [APIException] and the response
                           handlers of the two clients;
    - [logger_tools_wide]  the delivery code of [TelegramHandler] and
                           [BotLogger] over surroundings in which a call
                           may end in any exception, the print of a
                           diagnostic may fail and a thread may fail to
                           start.

    Python [str] is modelled as [string] (code points below 256), Python
    [int] as [Z], a [dict] whose order is observable as an association list
    and a [dict] used as a lookup table as a [gmap]. *)

From Stdlib Require Import ZArith String Ascii List Bool Lia DecimalString.
From stdpp Require Import gmap strings.

Local Open Scope Z_scope.
Local Open Scope string_scope.
Local Open Scope list_scope.

(* ===================================================================== *)
(** * Python fragment *)
(* ===================================================================== *)

Module Py.

(** Exception classes: the built-in hierarchy as far as the sources and
    their libraries reach, plus user classes deriving from [Exception] or
    directly from [BaseException]. *)
Inductive ExcClass : Type :=
| BaseException
| SystemExit
| KeyboardInterrupt
| GeneratorExit
| Exception
| TypeError
| ValueError
| KeyError
| OSError
| FileNotFoundError
| FileExistsError
| TimeoutError
| TelegramError
| InvalidToken
| NetworkError
| UserError (name : string)
| UserSignal (name : string).

#[global] Instance ExcClass_eq_dec : EqDecision ExcClass.
Proof. solve_decision. Defined.

(** The direct base class ([None] for the root). *)
Definition base (c : ExcClass) : option ExcClass :=
  match c with
  | BaseException => None
  | SystemExit | KeyboardInterrupt | GeneratorExit | Exception
  | UserSignal _ => Some BaseException
  | FileNotFoundError | FileExistsError | TimeoutError => Some OSError
  | InvalidToken | NetworkError => Some TelegramError
  | TypeError | ValueError | KeyError | OSError | TelegramError
  | UserError _ => Some Exception
  end.

(** [issubclass c d]: the chain of bases of [c] has depth at most 3. *)
Fixpoint issubclass_fuel (n : nat) (c d : ExcClass) : bool :=
  if decide (c = d) then true
  else match n with
       | O => false
       | S n' => match base c with
                 | Some b => issubclass_fuel n' b d
                 | None => false
                 end
       end.

Definition issubclass (c d : ExcClass) : bool := issubclass_fuel 3 c d.

(** An exception instance: its class and the text [str(e)] gives. *)
Record PyExc : Type := mkExc { exc_class : ExcClass; exc_str : string }.

Definition isinstance (e : PyExc) (c : ExcClass) : bool :=
  issubclass (exc_class e) c.

(** The result of a call: a value, or a raised exception. *)
Inductive Outcome (A : Type) : Type :=
| Return (a : A)
| Raise (e : PyExc).
Arguments Return {A} a.
Arguments Raise {A} e.

(** Values that travel as arguments.  [PyObj r t] is any other object,
    known by its [repr] text [r] and its truth value [t]. *)
Inductive PyVal : Type :=
| PyNone
| PyBool (b : bool)
| PyInt (z : Z)
| PyStr (s : string)
| PyObj (repr_text : string) (truth : bool).

Definition truthy (v : PyVal) : bool :=
  match v with
  | PyNone => false
  | PyBool b => b
  | PyInt z => negb (Z.eqb z 0)
  | PyStr s => negb (String.eqb s EmptyString)
  | PyObj _ t => t
  end.

(** [len(s)] of a [str]. *)
Definition len (s : string) : Z := Z.of_nat (String.length s).

(** ** Rendering: [repr] and [str] *)

Definition repr_int (z : Z) : string := NilZero.string_of_int (Z.to_int z).

Definition hex_digit (n : N) : ascii :=
  if (n <? 10)%N then ascii_of_N (48 + n) else ascii_of_N (87 + n).

Definition backslash : ascii := "092"%char.

Definition hex_escape (c : ascii) : string :=
  let n := N_of_ascii c in
  String backslash (String "x" (String (hex_digit (n / 16)) (String (hex_digit (n mod 16)) EmptyString))).

(** Code points below 256 that [str.isprintable] accepts. *)
Definition isprintable (c : ascii) : bool :=
  let n := N_of_ascii c in
  ((32 <=? n) && (n <? 127) || (161 <=? n) && negb (n =? 173))%N.

Fixpoint contains_char (c : ascii) (s : string) : bool :=
  match s with
  | EmptyString => false
  | String a s' => if Ascii.eqb a c then true else contains_char c s'
  end.

Definition dquote : ascii := "034"%char.

Definition quote_for (s : string) : ascii :=
  if contains_char "'" s && negb (contains_char dquote s) then dquote
  else "'"%char.

Definition escape_char (q c : ascii) : string :=
  if Ascii.eqb c q || Ascii.eqb c backslash then String backslash (String c EmptyString)
  else if Ascii.eqb c "009" then String backslash "t"
  else if Ascii.eqb c "010" then String backslash "n"
  else if Ascii.eqb c "013" then String backslash "r"
  else if isprintable c then String c EmptyString
  else hex_escape c.

Fixpoint escape_body (q : ascii) (s : string) : string :=
  match s with
  | EmptyString => EmptyString
  | String c s' => escape_char q c +:+ escape_body q s'
  end.

(** [repr(s)] of a [str]: quote choice and escapes as CPython does. *)
Definition repr_str (s : string) : string :=
  let q := quote_for s in
  String q (escape_body q s +:+ String q EmptyString).

Definition repr (v : PyVal) : string :=
  match v with
  | PyNone => "None"
  | PyBool true => "True"
  | PyBool false => "False"
  | PyInt z => repr_int z
  | PyStr s => repr_str s
  | PyObj r _ => r
  end.

(** [", ".join(parts)]. *)
Fixpoint join (sep : string) (parts : list string) : string :=
  match parts with
  | [] => EmptyString
  | [p] => p
  | p :: rest => p +:+ sep +:+ join sep rest
  end.

(** [str(t)] of a tuple: a one-element tuple keeps its trailing comma. *)
Definition str_tuple (t : list PyVal) : string :=
  match t with
  | [v] => "(" +:+ repr v +:+ ",)"
  | _ => "(" +:+ join ", " (map repr t) +:+ ")"
  end.

(** [str(d)] of a dict with [str] keys, in insertion order. *)
Definition str_dict (d : list (string * PyVal)) : string :=
  "{" +:+ join ", " (map (fun kv => repr_str (fst kv) +:+ ": " +:+ repr (snd kv)) d) +:+ "}".

(** Keyword dictionaries. *)
Definition kwargs_t : Type := list (string * PyVal).

Fixpoint kw_get (k : string) (d : kwargs_t) : option PyVal :=
  match d with
  | [] => None
  | (k', v) :: d' => if String.eqb k k' then Some v else kw_get k d'
  end.

Definition kw_has (k : string) (d : kwargs_t) : bool :=
  match kw_get k d with Some _ => true | None => false end.

Definition kw_del (k : string) (d : kwargs_t) : kwargs_t :=
  filter (fun kv => negb (String.eqb k (fst kv))) d.

(** ** Effects: state passing with exceptions *)

Definition M (S A : Type) : Type := S -> Outcome A * S.

Definition ret {S A} (a : A) : M S A := fun s => (Return a, s).

Definition throw {S A} (e : PyExc) : M S A := fun s => (Raise e, s).

Definition bind {S A B} (m : M S A) (k : A -> M S B) : M S B :=
  fun s => match m s with
           | (Return a, s') => k a s'
           | (Raise e, s') => (Raise e, s')
           end.

(** What an [except] clause is given to match against: a class, a tuple
    of classes, or (as [catch_exception_decorator] passes) a list. *)
Inductive ExceptSpec : Type :=
| ExcOne (c : ExcClass)
| ExcTuple (classes : list ExcClass)
| ExcList (classes : list ExcClass).

(** Matching a raised exception against the clause.  Only classes and
    tuples of classes are accepted; anything else makes the clause itself
    raise [TypeError] once an exception reaches it. *)
Definition except_match (spec : ExceptSpec) (e : PyExc) : Outcome bool :=
  match spec with
  | ExcOne c => Return (isinstance e c)
  | ExcTuple cs => Return (existsb (isinstance e) cs)
  | ExcList _ =>
      Raise (mkExc TypeError
        "catching classes that do not inherit from BaseException is not allowed")
  end.

(** [try: body except spec as e: handler(e)]. *)
Definition try_except {S A} (body : M S A) (spec : ExceptSpec) (handler : PyExc -> M S A) : M S A :=
  fun s => match body s with
           | (Return a, s') => (Return a, s')
           | (Raise e, s') =>
               match except_match spec e with
               | Return true => handler e s'
               | Return false => (Raise e, s')
               | Raise te => (Raise te, s')
               end
           end.

(** An ordinary error: an exception whose class derives from [Exception],
    which is what libraries raise to report a failure. *)
Record StdError : Type :=
  mkStd { std_exc : PyExc; std_is_exception : isinstance std_exc Exception = true }.

Definition raise_if {S} (failure : option StdError) : M S unit :=
  match failure with
  | None => ret tt
  | Some e => throw (std_exc e)
  end.

(** [for x in xs: body(x)]: the first exception ends the loop. *)
Fixpoint for_each {S A} (xs : list A) (body : A -> M S unit) : M S unit :=
  match xs with
  | [] => ret tt
  | x :: xs' => bind (body x) (fun _ => for_each xs' body)
  end.

End Py.

Export Py.

Declare Scope py_scope.
Delimit Scope py_scope with py.
Notation "x <- m ;; k" := (bind m (fun x => k))
  (at level 100, m at next level, right associativity) : py_scope.
Notation "m ;;; k" := (bind m (fun _ => k))
  (at level 100, right associativity) : py_scope.

Local Open Scope py_scope.

(** A callable as the wrappers see it: positional and keyword arguments
    in, a value or an exception out. *)
Definition Callable : Type := list PyVal -> kwargs_t -> Outcome PyVal.

(* ===================================================================== *)
(** * func_tools.py *)
(* ===================================================================== *)

Module func_tools.

(** The observable effect of a wrapper call: the exceptions the callback
    was invoked with, oldest first. *)
Definition World : Type := list PyExc.

Definition call_func (func : Callable) (args : list PyVal) (kwargs : kwargs_t) : M World PyVal :=
  fun w => (func args kwargs, w).

Definition call_callback (callback : PyExc -> Outcome PyVal) (e : PyExc) : M World PyVal :=
  fun w => (callback e, w ++ [e]).

(** [catch_exception_decorator(func, callback, exceptions=None, default=None)]
    returns [wrapper]; the result below is a call of [wrapper]. *)
Definition catch_exception_decorator
  (func : Callable) (callback : PyExc -> Outcome PyVal)
  (exceptions : option ExceptSpec) (default : PyVal)
  : list PyVal -> kwargs_t -> M World PyVal :=
  let exceptions :=
    match exceptions with
    | None => ExcList [Exception]
    | Some given => given
    end in
  fun args kwargs =>
    try_except (call_func func args kwargs) exceptions
      (fun e => call_callback callback e ;;; ret default).

End func_tools.

(* ===================================================================== *)
(** * thread_tools.py *)
(* ===================================================================== *)

Module thread_tools.

(** What a call leaves behind: threads started, tasks handed to a pool,
    and blocking waits on a task's future. *)
Inductive Event : Type :=
| ThreadStart (target : Callable) (args : list PyVal) (kwargs : kwargs_t)
| PoolSubmit (fn : Callable) (args : list PyVal) (kwargs : kwargs_t)
| FutureResult.

Definition World : Type := list Event.

(** A future holds what the submitted call produces. *)
Record Future : Type := mkFuture { fut_outcome : Outcome PyVal }.

(** [Thread(target=func, args=args, kwargs=kwargs).start()]. *)
Definition Thread_start (func : Callable) (args : list PyVal) (kwargs : kwargs_t) : M World unit :=
  fun w => (Return tt, w ++ [ThreadStart func args kwargs]).

(** [ThreadPoolExecutor().submit(func, *args, **kwargs)]. *)
Definition submit (func : Callable) (args : list PyVal) (kwargs : kwargs_t) : M World Future :=
  fun w => (Return (mkFuture (func args kwargs)), w ++ [PoolSubmit func args kwargs]).

(** [future.result()]: waits for the call, then returns its value or
    raises its exception. *)
Definition result (fut : Future) : M World PyVal :=
  fun w => (fut_outcome fut, w ++ [FutureResult]).

(** Body of [run_in_threadpool(func, return_result=False, *args, **kwargs)]
    once its parameters are bound. *)
Definition run_in_threadpool
  (func : Callable) (return_result : PyVal) (args : list PyVal) (kwargs : kwargs_t)
  : M World PyVal :=
  if truthy return_result then
    fut <- submit func args kwargs ;; result fut
  else
    _ <- submit func args kwargs ;; ret PyNone.

(** Body of [run_in_thread(func, *args, **kwargs)]. *)
Definition run_in_thread (func : Callable) (args : list PyVal) (kwargs : kwargs_t) : M World PyVal :=
  Thread_start func args kwargs ;;; ret PyNone.

Definition multiple_values (fn param : string) : PyExc :=
  mkExc TypeError (fn +:+ "() got multiple values for argument '" +:+ param +:+ "'").

(** The call [run_in_thread(func, *args, **kwargs)]: [func] takes the first
    positional slot, so a keyword of that name is refused. *)
Definition call_run_in_thread (func : Callable) (args : list PyVal) (kwargs : kwargs_t) : M World PyVal :=
  if kw_has "func" kwargs then throw (multiple_values "run_in_thread" "func")
  else run_in_thread func args kwargs.

(** The call [run_in_threadpool(func, *args, **kwargs)]: positional
    arguments fill [func], then [return_result], and only the rest reaches
    [*args]; a keyword [return_result] fills the parameter when no
    positional argument did. *)
Definition call_run_in_threadpool (func : Callable) (args : list PyVal) (kwargs : kwargs_t) : M World PyVal :=
  if kw_has "func" kwargs then throw (multiple_values "run_in_threadpool" "func")
  else
    match args with
    | first :: rest =>
        if kw_has "return_result" kwargs
        then throw (multiple_values "run_in_threadpool" "return_result")
        else run_in_threadpool func first rest kwargs
    | [] =>
        match kw_get "return_result" kwargs with
        | Some v => run_in_threadpool func v [] (kw_del "return_result" kwargs)
        | None => run_in_threadpool func (PyBool false) [] kwargs
        end
    end.

(** [run_in_thread_decorator(func)] returns [wrapper]; [wrapper] has no
    [return] statement. *)
Definition run_in_thread_decorator (func : Callable) : list PyVal -> kwargs_t -> M World PyVal :=
  fun args kwargs => call_run_in_thread func args kwargs ;;; ret PyNone.

(** [run_in_threadpool_decorator(func)] returns [wrapper]. *)
Definition run_in_threadpool_decorator (func : Callable) : list PyVal -> kwargs_t -> M World PyVal :=
  fun args kwargs => call_run_in_threadpool func args kwargs ;;; ret PyNone.

End thread_tools.

(* ===================================================================== *)
(** * logger_tools.py *)
(* ===================================================================== *)

Module logger_tools.

Definition _FORMAT : string :=
  "%(asctime)s - (%(lineno)d):[%(levelname)s] --> %(message)s".

(** How an f-string renders an optional tag. *)
Definition str_optional (o : option string) : string :=
  match o with
  | Some s => s
  | None => "None"
  end.

Definition is_nonempty {A} (l : list A) : bool :=
  match l with [] => false | _ => true end.

Definition _make_message (msg : string) (f_name : option string)
  (args : list PyVal) (kwargs : kwargs_t) : string :=
  let _msg := "[" +:+ str_optional f_name +:+ "] - " +:+ msg in
  let _msg :=
    if is_nonempty args && (Z.of_nat (length args) >? 0)
    then _msg +:+ " | " +:+ str_tuple args else _msg in
  let _msg :=
    if is_nonempty kwargs && (Z.of_nat (length kwargs) >? 0)
    then _msg +:+ " | " +:+ str_dict kwargs else _msg in
  _msg.

(** ** Severity levels of [logging] *)

Definition DEBUG : Z := 10.
Definition INFO : Z := 20.
Definition WARNING : Z := 30.
Definition ERROR : Z := 40.
Definition CRITICAL : Z := 50.

Definition standard_levels : list Z := [DEBUG; INFO; WARNING; ERROR; CRITICAL].

(** ** ColoredFormatter *)

Definition ESC : ascii := "027"%char.

Definition grey : string := String ESC "[90m".
Definition blue : string := String ESC "[94m".
Definition yellow : string := String ESC "[93m".
Definition red : string := String ESC "[91m".
Definition bold_red : string := String ESC "[31;1m".
Definition reset : string := String ESC "[0m".

(** [formats] is the level table; [base_fmt] is what the constructor hands
    to [logging.Formatter.__init__], which stores it. *)
Record ColoredFormatter : Type := mkFormatter {
  formats : gmap Z string;
  base_fmt : string
}.

Definition ColoredFormatter_init (name fmt : string) (colored : bool) : ColoredFormatter :=
  let __format := "[" +:+ name +:+ "] - " +:+ fmt in
  if colored then
    {| formats := list_to_map
         [ (DEBUG, blue +:+ __format +:+ reset);
           (INFO, grey +:+ __format +:+ reset);
           (WARNING, yellow +:+ __format +:+ reset);
           (ERROR, red +:+ __format +:+ reset);
           (CRITICAL, bold_red +:+ __format +:+ reset) ];
       base_fmt := __format |}
  else
    {| formats := list_to_map
         [ (DEBUG, __format);
           (INFO, __format);
           (WARNING, __format);
           (ERROR, __format);
           (CRITICAL, __format) ];
       base_fmt := __format |}.

(** Escape characters in a text: every ANSI code starts with one. *)
Fixpoint count_esc (s : string) : nat :=
  match s with
  | EmptyString => O
  | String c rest => ((if Ascii.eqb c ESC then 1 else 0) + count_esc rest)%nat
  end.

Definition is_digit_or_semicolon (c : ascii) : bool :=
  let n := N_of_ascii c in
  ((48 <=? n) && (n <=? 57) || (n =? 59))%N.

Fixpoint parameters_then_m (s : string) : bool :=
  match s with
  | EmptyString => false
  | String c EmptyString => Ascii.eqb c "m"
  | String c rest => is_digit_or_semicolon c && parameters_then_m rest
  end.

(** A graphic-rendition code: ESC, an opening bracket, parameters, m. *)
Definition is_sgr (s : string) : bool :=
  match s with
  | String e (String b rest) => Ascii.eqb e ESC && Ascii.eqb b "[" && parameters_then_m rest
  | _ => false
  end.

(** ** Records and percent-style rendering ([logging.Formatter]) *)

Record LogRecord : Type := mkRecord {
  rec_name : string;
  levelno : Z;
  levelname : string;
  lineno : Z;
  funcName : string;
  asctime : string;
  message : string;
  exc_text : option string
}.

Definition record_dict (r : LogRecord) : kwargs_t :=
  [ ("name", PyStr (rec_name r));
    ("levelno", PyInt (levelno r));
    ("levelname", PyStr (levelname r));
    ("lineno", PyInt (lineno r));
    ("funcName", PyStr (funcName r));
    ("asctime", PyStr (asctime r));
    ("message", PyStr (message r)) ].

Definition str_of (v : PyVal) : string :=
  match v with
  | PyStr s => s
  | _ => repr v
  end.

Inductive Scan : Type :=
| InText
| AfterPercent
| InKey (key : string)
| AfterKey (key : string).

Definition prepend (s : string) (o : Outcome string) : Outcome string :=
  match o with
  | Return t => Return (s +:+ t)
  | Raise e => Raise e
  end.

(** [tpl % d] for the directives the templates of this package use:
    [%(key)s], [%(key)d] and [%%].  Flags, widths and the other conversion
    types are outside this fragment and are reported as an unsupported
    format character. *)
Fixpoint percent_format (st : Scan) (tpl : string) (d : kwargs_t) : Outcome string :=
  match tpl with
  | EmptyString =>
      match st with
      | InText => Return EmptyString
      | _ => Raise (mkExc ValueError "incomplete format")
      end
  | String c rest =>
      match st with
      | InText =>
          if Ascii.eqb c "%" then percent_format AfterPercent rest d
          else prepend (String c EmptyString) (percent_format InText rest d)
      | AfterPercent =>
          if Ascii.eqb c "%" then prepend "%" (percent_format InText rest d)
          else if Ascii.eqb c "(" then percent_format (InKey EmptyString) rest d
          else Raise (mkExc ValueError "unsupported format character")
      | InKey k =>
          if Ascii.eqb c ")" then percent_format (AfterKey k) rest d
          else percent_format (InKey (k +:+ String c EmptyString)) rest d
      | AfterKey k =>
          match kw_get k d with
          | None => Raise (mkExc KeyError (repr_str k))
          | Some v =>
              if Ascii.eqb c "s" then prepend (str_of v) (percent_format InText rest d)
              else if Ascii.eqb c "d" then
                match v with
                | PyInt z => prepend (repr_int z) (percent_format InText rest d)
                | PyBool b => prepend (if b then "1" else "0") (percent_format InText rest d)
                | _ => Raise (mkExc TypeError "%d format: a number is required")
                end
              else Raise (mkExc ValueError "unsupported format character")
          end
      end
  end.

Definition newline : string := String "010" EmptyString.

Fixpoint ends_with_newline (s : string) : bool :=
  match s with
  | EmptyString => false
  | String c EmptyString => Ascii.eqb c "010"
  | String _ rest => ends_with_newline rest
  end.

(** [logging.Formatter(fmt).format(record)]: a missing template is
    replaced by the library default, and a traceback text is appended on a
    line of its own. *)
Definition default_format : string := "%(message)s".

Definition Formatter_format (fmt : option string) (record : LogRecord) : Outcome string :=
  let tpl := match fmt with Some f => f | None => default_format end in
  match percent_format InText tpl (record_dict record) with
  | Raise e => Raise e
  | Return s =>
      match exc_text record with
      | Some t =>
          if String.eqb t EmptyString then Return s
          else Return ((if ends_with_newline s then s else s +:+ newline) +:+ t)
      | None => Return s
      end
  end.

Definition ColoredFormatter_format (self : ColoredFormatter) (record : LogRecord) : Outcome string :=
  let log_fmt := formats self !! levelno record in
  Formatter_format log_fmt record.

(** ** TelegramHandler *)

(** What a delivery leaves behind, oldest first: calls on the bot, the
    document file written, and lines printed to standard output. *)
Inductive Event : Type :=
| SendMessage (chat_id : Z) (text : string)
| SendDocument (chat_id : Z) (document : string)
| WriteFile (path content : string)
| Print (text : string).

Definition World : Type := list Event.

(** The surroundings of a handler.  Each answer may depend on everything
    that happened before.  A failure is an ordinary error: the bot library
    and the file system report theirs with classes deriving from
    [Exception]; signals such as [KeyboardInterrupt] are not answers of
    the surroundings. *)
Record Env : Type := mkEnv {
  uuid4_head : World -> string;
  open_write : World -> string -> string -> option StdError;
  bot_send_message : World -> Z -> string -> option StdError;
  bot_send_document : World -> Z -> string -> option StdError
}.

Record TelegramHandler : Type := mkTelegramHandler {
  bot_token : string;
  chat_ids : list Z;
  fmt : string;
  _MAX_LEN : Z;
  run_async : bool
}.

Definition TelegramHandler_fmt : string :=
  "[%(levelname)s]" +:+ newline +:+ "%(lineno)d - %(funcName)s:" +:+ newline +:+ newline +:+ "%(message)s".

Definition TelegramHandler_init (bot_token : string) (chat_ids : list Z) (run_async : bool) : TelegramHandler :=
  {| bot_token := bot_token;
     chat_ids := chat_ids;
     fmt := TelegramHandler_fmt;
     _MAX_LEN := 4096;
     run_async := run_async |}.

Section Delivery.

Variable env : Env.

Definition send_message (chat_id : Z) (text : string) : M World unit :=
  fun w => raise_if (bot_send_message env w chat_id text) (w ++ [SendMessage chat_id text]).

Definition send_document (chat_id : Z) (document : string) : M World unit :=
  fun w => raise_if (bot_send_document env w chat_id document) (w ++ [SendDocument chat_id document]).

Definition write_file (path content : string) : M World unit :=
  fun w => raise_if (open_write env w path content) (w ++ [WriteFile path content]).

Definition uuid4_first_group : M World string :=
  fun w => (Return (uuid4_head env w), w).

Definition print (text : string) : M World unit :=
  fun w => (Return tt, w ++ [Print text]).

Definition _send_message (self : TelegramHandler) (msg : string) : M World unit :=
  for_each (chat_ids self) (fun chat_id => send_message chat_id msg).

Definition _send_document (self : TelegramHandler) (doc : string) : M World unit :=
  for_each (chat_ids self) (fun chat_id => send_document chat_id doc).

Definition _send_as_document (self : TelegramHandler) (msg : string) : M World unit :=
  rand_name <- uuid4_first_group ;;
  write_file ("logs/" +:+ rand_name +:+ "-logs.txt") msg ;;;
  _send_document self ("logs/" +:+ rand_name +:+ "-logs.txt").

Definition send (self : TelegramHandler) (msg : string) : M World unit :=
  try_except
    (if len msg >? _MAX_LEN self
     then _send_as_document self msg
     else _send_message self msg)
    (ExcOne Exception)
    (fun e => print (exc_str e)).

End Delivery.

(** ** Shapes of a delivery trace *)

Definition message_calls (ids : list Z) (msg : string) : list Event :=
  map (fun chat_id => SendMessage chat_id msg) ids.

Definition document_calls (ids : list Z) (doc : string) : list Event :=
  map (fun chat_id => SendDocument chat_id doc) ids.

(** The text went out as plain messages: to every destination in order,
    or up to a call that failed, followed by the diagnostic line. *)
Definition sent_as_message (ids : list Z) (msg : string) (new : list Event) : Prop :=
  new = message_calls ids msg
  \/ exists k t, (k < length ids)%nat
       /\ new = message_calls (take (S k) ids) msg ++ [Print t].

(** The text went out as a document: written to a file, and that file
    sent to every destination in order, or up to a step that failed,
    followed by the diagnostic line. *)
Definition sent_as_document (ids : list Z) (msg : string) (new : list Event) : Prop :=
  exists path,
    new = WriteFile path msg :: document_calls ids path
    \/ (exists t, new = [WriteFile path msg; Print t])
    \/ exists k t, (k < length ids)%nat
         /\ new = WriteFile path msg :: document_calls (take (S k) ids) path ++ [Print t].

(** ** NiceLogger: the constructor *)

Inductive Handler : Type :=
| StreamHandler (level : Z) (formatter : ColoredFormatter)
| TimedRotatingFileHandler (filename when : string) (backupCount : Z)
    (encoding : string) (level : Z) (formatter : ColoredFormatter)
| TelegramSink (handler : TelegramHandler).

Definition is_telegram (h : Handler) : bool :=
  match h with TelegramSink _ => true | _ => false end.

Definition is_file (h : Handler) : bool :=
  match h with TimedRotatingFileHandler _ _ _ _ _ _ => true | _ => false end.

Definition filename_of (h : Handler) : option string :=
  match h with
  | TimedRotatingFileHandler filename _ _ _ _ _ => Some filename
  | _ => None
  end.

(** The logger under construction.  [handlers] is empty until the first
    [addHandler]; [level] is 0 (NOTSET) until [setLevel]. *)
Record NiceLogger : Type := mkLogger {
  __enable_file : bool;
  __enable_telegram : bool;
  __telegram_token : option string;
  __telegram_chat_ids : option (list Z);
  __tele_run_async : bool;
  name : string;
  level : Z;
  handlers : list Handler
}.

(** The parameters of [NiceLogger.__init__]. *)
Record Params : Type := mkParams {
  p_name : string;
  p_fmt : string;
  p_enable_file : bool;
  p_enable_telegram : bool;
  p_telegram_token : option string;
  p_telegram_chat_ids : option (list Z);
  p_tele_run_async : bool;
  p_colored : bool;
  p_when : string;
  p_backup_count : Z;
  p_encoding : string;
  p_log_folder : string
}.

(** [NiceLogger(name)] with every other parameter at its default. *)
Definition defaults (name : string) : Params :=
  {| p_name := name;
     p_fmt := _FORMAT;
     p_enable_file := true;
     p_enable_telegram := false;
     p_telegram_token := None;
     p_telegram_chat_ids := None;
     p_tele_run_async := true;
     p_colored := true;
     p_when := "midnight";
     p_backup_count := 2;
     p_encoding := "utf-8";
     p_log_folder := "logs" |}.

(** Calls that reach the operating system or the bot library. *)
Inductive SysCall : Type :=
| PathExists (folder : string)
| Mkdir (folder : string)
| OpenLog (filename : string)
| BotInit (token : string).

(** Their answers, which may depend on the calls made so far. *)
Record Sys : Type := mkSys {
  os_path_exists : list SysCall -> string -> bool;
  os_mkdir : list SysCall -> string -> option StdError;
  open_log : list SysCall -> string -> option StdError;
  bot_init : list SysCall -> string -> option StdError
}.

Record State : Type := mkState {
  self : NiceLogger;
  calls : list SysCall
}.

Definition blank : NiceLogger :=
  {| __enable_file := false;
     __enable_telegram := false;
     __telegram_token := None;
     __telegram_chat_ids := None;
     __tele_run_async := false;
     name := EmptyString;
     level := 0;
     handlers := [] |}.

Definition initial : State := {| self := blank; calls := [] |}.

Definition get_self : M State NiceLogger :=
  fun st => (Return (self st), st).

Definition update (f : NiceLogger -> NiceLogger) : M State unit :=
  fun st => (Return tt, {| self := f (self st); calls := calls st |}).

Definition set_private (p : Params) (s : NiceLogger) : NiceLogger :=
  {| __enable_file := p_enable_file p;
     __enable_telegram := p_enable_telegram p;
     __telegram_token := p_telegram_token p;
     __telegram_chat_ids := p_telegram_chat_ids p;
     __tele_run_async := p_tele_run_async p;
     name := name s;
     level := level s;
     handlers := handlers s |}.

Definition set_enable_telegram (b : bool) (s : NiceLogger) : NiceLogger :=
  {| __enable_file := __enable_file s;
     __enable_telegram := b;
     __telegram_token := __telegram_token s;
     __telegram_chat_ids := __telegram_chat_ids s;
     __tele_run_async := __tele_run_async s;
     name := name s;
     level := level s;
     handlers := handlers s |}.

Definition set_name (n : string) (s : NiceLogger) : NiceLogger :=
  {| __enable_file := __enable_file s;
     __enable_telegram := __enable_telegram s;
     __telegram_token := __telegram_token s;
     __telegram_chat_ids := __telegram_chat_ids s;
     __tele_run_async := __tele_run_async s;
     name := n;
     level := level s;
     handlers := handlers s |}.

Definition setLevel (l : Z) (s : NiceLogger) : NiceLogger :=
  {| __enable_file := __enable_file s;
     __enable_telegram := __enable_telegram s;
     __telegram_token := __telegram_token s;
     __telegram_chat_ids := __telegram_chat_ids s;
     __tele_run_async := __tele_run_async s;
     name := name s;
     level := l;
     handlers := handlers s |}.

Definition addHandler (h : Handler) (s : NiceLogger) : NiceLogger :=
  {| __enable_file := __enable_file s;
     __enable_telegram := __enable_telegram s;
     __telegram_token := __telegram_token s;
     __telegram_chat_ids := __telegram_chat_ids s;
     __tele_run_async := __tele_run_async s;
     name := name s;
     level := level s;
     handlers := handlers s ++ [h] |}.

Definition is_None {A} (o : option A) : bool :=
  match o with None => true | Some _ => false end.

Definition when_ {S} (c : bool) (m : M S unit) : M S unit :=
  if c then m else ret tt.

Section Construction.

Variable sys : Sys.

Definition path_exists (folder : string) : M State bool :=
  fun st => (Return (os_path_exists sys (calls st) folder),
             {| self := self st; calls := calls st ++ [PathExists folder] |}).

Definition mkdir (folder : string) : M State unit :=
  fun st => raise_if (os_mkdir sys (calls st) folder)
              {| self := self st; calls := calls st ++ [Mkdir folder] |}.

Definition open_log_file (filename : string) : M State unit :=
  fun st => raise_if (open_log sys (calls st) filename)
              {| self := self st; calls := calls st ++ [OpenLog filename] |}.

Definition Bot (token : string) : M State unit :=
  fun st => raise_if (bot_init sys (calls st) token)
              {| self := self st; calls := calls st ++ [BotInit token] |}.

Definition _make_folder (folder : string) : M State unit :=
  found <- path_exists folder ;;
  when_ (negb found) (mkdir folder).

Definition __handle_telegram : M State unit :=
  s <- get_self ;;
  when_ (__enable_telegram s && is_None (__telegram_token s))
    (throw (mkExc ValueError "When enable_telegram is True, Telegram token is required")) ;;;
  when_ (__enable_telegram s && is_None (__telegram_chat_ids s))
    (throw (mkExc ValueError "When enable_telegram is True, Telegram chat ids are required")) ;;;
  when_ (negb (is_None (__telegram_chat_ids s)) && negb (is_None (__telegram_token s)))
    (update (set_enable_telegram true)).

(** [TimedRotatingFileHandler(filename=..., ...)] opens its file at once. *)
Definition new_TimedRotatingFileHandler (filename when : string) (backupCount : Z)
  (encoding : string) : M State (Z -> ColoredFormatter -> Handler) :=
  open_log_file filename ;;;
  ret (TimedRotatingFileHandler filename when backupCount encoding).

(** [TelegramHandler(token, chat_ids, run_async)]: the constructor builds
    the bot from the token.  Without a token or a destination list the
    bot library fails on its argument; that case is never reached, see
    [telegram_sink_has_credentials]. *)
Definition new_TelegramHandler (token : option string) (ids : option (list Z))
  (run_async : bool) : M State TelegramHandler :=
  match token, ids with
  | Some t, Some l => Bot t ;;; ret (TelegramHandler_init t l run_async)
  | _, _ => throw (mkExc TypeError "'NoneType' object is not iterable")
  end.

Definition __init__ (p : Params) : M State unit :=
  update (set_private p) ;;;
  __handle_telegram ;;;
  update (set_name (p_name p)) ;;;
  update (setLevel DEBUG) ;;;
  update (addHandler
    (StreamHandler DEBUG (ColoredFormatter_init (p_name p) (p_fmt p) (p_colored p)))) ;;;
  s <- get_self ;;
  when_ (__enable_file s)
    (_make_folder (p_log_folder p) ;;;
     th <- new_TimedRotatingFileHandler ("logs/" +:+ p_name p +:+ "-logs")
             (p_when p) (p_backup_count p) (p_encoding p) ;;
     update (addHandler (th DEBUG (ColoredFormatter_init (p_name p) (p_fmt p) false)))) ;;;
  s <- get_self ;;
  when_ (__enable_telegram s)
    (tgh <- new_TelegramHandler (__telegram_token s) (__telegram_chat_ids s)
              (__tele_run_async s) ;;
     update (addHandler (TelegramSink tgh))).

(** [NiceLogger(...)]: the outcome of the constructor and the state it
    leaves, starting from nothing. *)
Definition construct (p : Params) : Outcome unit * State := __init__ p initial.

End Construction.

End logger_tools.

(* ===================================================================== *)
(** * Concrete callables, surroundings and inputs *)
(* ===================================================================== *)

Module scenarios.

Import logger_tools.

(** A callable that raises [ValueError]. *)
Definition failing : Callable :=
  fun _ _ => Raise (mkExc ValueError "boom").

(** A callable that returns how many positional arguments it received. *)
Definition arity : Callable :=
  fun args _ => Return (PyInt (Z.of_nat (length args))).

(** A callback that returns [None]. *)
Definition note : PyExc -> Outcome PyVal :=
  fun _ => Return PyNone.

Definition timed_out : StdError :=
  mkStd (mkExc NetworkError "Timed out") eq_refl.

Definition no_such_directory : StdError :=
  mkStd (mkExc FileNotFoundError "[Errno 2] No such file or directory") eq_refl.

Definition already_there : StdError :=
  mkStd (mkExc FileExistsError "[Errno 17] File exists") eq_refl.

(** Surroundings in which every delivery succeeds. *)
Definition reliable : Env :=
  {| uuid4_head := fun _ => "1a2b3c4d";
     open_write := fun _ _ _ => None;
     bot_send_message := fun _ _ _ => None;
     bot_send_document := fun _ _ _ => None |}.

(** Surroundings in which the bot cannot reach chat 2. *)
Definition chat2_down : Env :=
  {| uuid4_head := fun _ => "1a2b3c4d";
     open_write := fun _ _ _ => None;
     bot_send_message := fun _ chat _ => if Z.eqb chat 2 then Some timed_out else None;
     bot_send_document := fun _ chat _ => if Z.eqb chat 2 then Some timed_out else None |}.

(** [n] copies of the letter a. *)
Fixpoint filler (n : nat) : string :=
  match n with
  | O => EmptyString
  | S n' => String "a" (filler n')
  end.

(** A system on which nothing fails and no folder exists beforehand. *)
Definition permissive : Sys :=
  {| os_path_exists := fun _ _ => false;
     os_mkdir := fun _ _ => None;
     open_log := fun _ _ => None;
     bot_init := fun _ _ => None |}.

Definition created (calls : list SysCall) : list string :=
  flat_map (fun c => match c with Mkdir d => [d] | _ => [] end) calls.

Definition string_in (s : string) (l : list string) : bool :=
  existsb (String.eqb s) l.

(** A working directory that holds the folders [dirs] and those made
    since: a folder can be made once, and a file can be opened only inside
    a folder that exists. *)
Definition disk (dirs : list string) : Sys :=
  {| os_path_exists := fun calls folder => string_in folder (dirs ++ created calls);
     os_mkdir := fun calls folder =>
       if string_in folder (dirs ++ created calls) then Some already_there else None;
     open_log := fun calls filename =>
       if existsb (fun d => String.prefix (d +:+ "/") filename) (dirs ++ created calls)
       then None else Some no_such_directory;
     bot_init := fun _ _ => None |}.

(** [NiceLogger("app", log_folder="out")]. *)
Definition app_in_out : Params :=
  {| p_name := "app";
     p_fmt := _FORMAT;
     p_enable_file := true;
     p_enable_telegram := false;
     p_telegram_token := None;
     p_telegram_chat_ids := None;
     p_tele_run_async := true;
     p_colored := true;
     p_when := "midnight";
     p_backup_count := 2;
     p_encoding := "utf-8";
     p_log_folder := "out" |}.

(** [NiceLogger("app", enable_file=False, enable_telegram=True,
    telegram_token="123:abc", telegram_chat_ids=[])]. *)
Definition app_no_destinations : Params :=
  {| p_name := "app";
     p_fmt := _FORMAT;
     p_enable_file := false;
     p_enable_telegram := true;
     p_telegram_token := Some "123:abc";
     p_telegram_chat_ids := Some [];
     p_tele_run_async := true;
     p_colored := true;
     p_when := "midnight";
     p_backup_count := 2;
     p_encoding := "utf-8";
     p_log_folder := "logs" |}.

(** [NiceLogger("app", enable_file=False, enable_telegram=True,
    telegram_chat_ids=[7])]: the flag without a token. *)
Definition app_no_token : Params :=
  {| p_name := "app";
     p_fmt := _FORMAT;
     p_enable_file := false;
     p_enable_telegram := true;
     p_telegram_token := None;
     p_telegram_chat_ids := Some [7];
     p_tele_run_async := true;
     p_colored := true;
     p_when := "midnight";
     p_backup_count := 2;
     p_encoding := "utf-8";
     p_log_folder := "logs" |}.

(** A record at a level of the caller's own, between INFO and WARNING. *)
Definition notice_record : LogRecord :=
  {| rec_name := "app";
     levelno := 25;
     levelname := "NOTICE";
     lineno := 12;
     funcName := "main";
     asctime := "2024-01-01 00:00:00,000";
     message := "[info] - started";
     exc_text := None |}.

End scenarios.

(* ===================================================================== *)
(** * logger_tools.py: emit, format and BotLogger *)
(* ===================================================================== *)

Module logger_tools_rest.

(** [TelegramHandler.format]: the record through the handler's own
    template. *)
Definition format (self : logger_tools.TelegramHandler) (record : logger_tools.LogRecord)
  : Outcome string :=
  let log_fmt := logger_tools.fmt self in
  logger_tools.Formatter_format (Some log_fmt) record.

(** The bot a [BotLogger] holds: its token and, when given, the proxy of
    its request object. *)
Record BotHandle : Type := mkBotHandle {
  handle_token : string;
  proxy_url : option string
}.

Record BotLogger : Type := mkBotLogger {
  __name : string;
  __token : string;
  __chat_ids : list Z;
  __run_async : bool;
  _MAX_LEN : Z;
  __bot : BotHandle
}.

(** [BotLogger.__init__], the bot library having accepted the token. *)
Definition BotLogger_init (name token : string) (chat_ids : list Z) (run_async : bool)
  (proxy : option string) : BotLogger :=
  {| __name := name;
     __token := token;
     __chat_ids := chat_ids;
     __run_async := run_async;
     _MAX_LEN := 4096;
     __bot := match proxy with
              | Some url => {| handle_token := token; proxy_url := Some url |}
              | None => {| handle_token := token; proxy_url := None |}
              end |}.

(** What a started thread is to run: its target and its argument. *)
Inductive Task : Type :=
| Handler_send (self : logger_tools.TelegramHandler) (msg : string)
| Bot_send_as_document (self : BotLogger) (msg : string)
| Bot_send_message (self : BotLogger) (msg : string).

(** The caller's side of a logging call: what it did itself, and the
    threads it started, oldest first. *)
Record Host : Type := mkHost {
  events : logger_tools.World;
  started : list Task
}.

(** An action of the delivery layer, run on the caller's own path. *)
Definition on_events {A} (m : M logger_tools.World A) : M Host A :=
  fun h => match m (events h) with
           | (o, w') => (o, {| events := w'; started := started h |})
           end.

(** [Thread(target=..., args=(msg,)).start()]. *)
Definition Thread_start (task : Task) : M Host unit :=
  fun h => (Return tt, {| events := events h; started := started h ++ [task] |}).

Definition returned {S A} (o : Outcome A) : M S A :=
  fun s => (o, s).

Section Delivery.

Variable env : logger_tools.Env.

(** [TelegramHandler.emit]. *)
Definition emit (self : logger_tools.TelegramHandler) (record : logger_tools.LogRecord)
  : M Host unit :=
  msg <- returned (format self record) ;;
  if logger_tools.run_async self
  then Thread_start (Handler_send self msg)
  else on_events (logger_tools.send env self msg).

End Delivery.

End logger_tools_rest.

(* ===================================================================== *)
(** * func_tools.py: timeout_decorator *)
(* ===================================================================== *)

Module func_tools_rest.

(** Calls on the [signal] module, oldest first: installing the handler
    that raises [TimeoutError(error_message)], and [signal.alarm]. *)
Inductive SignalCall : Type :=
| SetHandler (error_message : option string)
| Alarm (seconds : Z).

Definition World : Type := list SignalCall.

(** A function as it runs under the wrapper: it may itself call on the
    [signal] module (a wrapped function inside a wrapped function does),
    and its outcome includes a [TimeoutError] the handler raised in it. *)
Definition Body : Type := list PyVal -> kwargs_t -> M World PyVal.

(** [try: body finally: final]. *)
Definition try_finally {S A} (body : M S A) (final : M S unit) : M S A :=
  fun s => match body s with
           | (o, s') =>
               match final s' with
               | (Return _, s'') => (o, s'')
               | (Raise e, s'') => (Raise e, s'')
               end
           end.

(** [signal.signal(signal.SIGALRM, handler)]: allowed in the main thread
    only. *)
Definition signal_signal (main_thread : bool) (error_message : option string) : M World unit :=
  if main_thread
  then fun w => (Return tt, w ++ [SetHandler error_message])
  else throw (mkExc ValueError "signal only works in main thread of the main interpreter").

(** The range of a C [int], which [signal.alarm] takes its argument as. *)
Definition INT_MIN : Z := -2147483648.
Definition INT_MAX : Z := 2147483647.

(** What the conversion of a Python [int] outside that range raises:
    [OverflowError], a class under [Exception]. *)
Definition OverflowError : PyExc :=
  mkExc (UserError "OverflowError") "Python int too large to convert to C int".

(** [signal.alarm(seconds)]. *)
Definition signal_alarm (seconds : Z) : M World unit :=
  if (seconds <? INT_MIN)%Z || (INT_MAX <? seconds)%Z
  then throw OverflowError
  else fun w => (Return tt, w ++ [Alarm seconds]).

(** [timeout_decorator(seconds, error_message)(func)] returns [wrapper];
    the result below is a call of [wrapper] in the main thread or not. *)
Definition timeout_decorator (seconds : Z) (error_message : option string) (func : Body)
  (main_thread : bool) : Body :=
  fun args kwargs =>
    signal_signal main_thread error_message ;;;
    signal_alarm seconds ;;;
    result <- try_finally (func args kwargs) (signal_alarm 0) ;;
    ret result.

(** The alarm requested last ([0]: none, or cancelled). *)
Definition last_alarm (w : World) : Z :=
  fold_left (fun a c => match c with Alarm n => n | SetHandler _ => a end) w 0.

End func_tools_rest.

(* ===================================================================== *)
(** * http_base_client.py: argument filtering and response handling *)
(* ===================================================================== *)

Module http_base_client.

(** A parsed JSON document: an object with its members in order, or any
    other value (array, text, number, true, false, null). *)
Inductive Json : Type :=
| JObject (members : kwargs_t)
| JOther (value : PyVal).

(** [document[key]]: a member of an object; a missing member is a
    [KeyError], and a document that is no object cannot be indexed by a
    text key. *)
Definition getitem (document : Json) (key : string) : Outcome PyVal :=
  match document with
  | JObject members =>
      match kw_get key members with
      | Some v => Return v
      | None => Raise (mkExc KeyError (repr_str key))
      end
  | JOther _ => Raise (mkExc TypeError "indices must be integers")
  end.

(** An [APIException] instance.  [result] is an attribute only when the
    error body was parsed. *)
Record APIException : Type := mkAPIException {
  code : PyVal;
  message : PyVal;
  result : option PyVal;
  status_code : Z
}.

(** What [str(e)] comes to: a text, or the attribute the instance
    lacks ([AttributeError]). *)
Inductive StrResult : Type :=
| Text (s : string)
| NoAttribute (name : string).

Definition str_of (v : PyVal) : string := logger_tools.str_of v.

(** [APIException.__str__]. *)
Definition APIException_str (self : APIException) : StrResult :=
  match result self with
  | Some r =>
      Text ("APIError(code=" +:+ str_of (code self) +:+ "): " +:+ str_of (message self)
            +:+ " | " +:+ str_of r)
  | None => NoAttribute "result"
  end.

(** [RequestException.__str__]. *)
Definition RequestException_str (message : string) : string :=
  "RequestException: " +:+ message.

(** What a response handler raises. *)
Inductive Failure : Type :=
| APIError (e : APIException)
| RequestError (message : string)
| Other (e : PyExc).

Inductive Handled : Type :=
| Parsed (document : Json)
| Failed (f : Failure).

Definition is_None (v : PyVal) : bool :=
  match v with PyNone => true | _ => false end.

(** [BaseClient._get_kwargs(locals_, del_keys=None, del_nones=False)]. *)
Definition _get_kwargs (locals_ : kwargs_t) (del_keys : option (list string))
  (del_nones : bool) : kwargs_t :=
  let _del_keys :=
    match del_keys with
    | Some more => ["self"; "cls"] ++ more
    | None => ["self"; "cls"]
    end in
  if del_nones
  then List.filter
         (fun kv => negb (existsb (String.eqb (fst kv)) _del_keys) && negb (is_None (snd kv)))
         locals_
  else List.filter (fun kv => negb (existsb (String.eqb (fst kv)) _del_keys)) locals_.

Section Responses.

(** [json.loads(text)]: the document, or nothing when the text is not
    JSON ([ValueError]). *)
Variable json_loads : string -> option Json.

(** [APIException(response, status_code, text)], [response_text] being
    what [response.text] is formatted as. *)
Definition APIException_init (response_text : string) (status : Z) (text : string)
  : Outcome APIException :=
  match json_loads text with
  | None =>
      Return {| code := PyInt 0;
                message := PyStr ("Invalid JSON error message from Site: " +:+ response_text);
                result := None;
                status_code := status |}
  | Some json_res =>
      match getitem json_res "code" with
      | Raise e => Raise e
      | Return c =>
          match getitem json_res "message" with
          | Raise e => Raise e
          | Return m =>
              match getitem json_res "result" with
              | Raise e => Raise e
              | Return r =>
                  Return {| code := c; message := m; result := Some r;
                            status_code := status |}
              end
          end
      end
  end.

(** [raise APIException(...)]: what reaches the caller. *)
Definition raise_APIException (response_text : string) (status : Z) (text : string) : Handled :=
  match APIException_init response_text status text with
  | Return e => Failed (APIError e)
  | Raise e => Failed (Other e)
  end.

(** A [requests] response: its status, its body, and what [json()]
    gives. *)
Record SyncResponse : Type := mkSyncResponse {
  sync_status_code : Z;
  sync_text : string;
  sync_json : Outcome Json
}.

(** An [aiohttp] response: its status, what [await text()] and
    [await json()] give, and how the method [text] itself, which the
    exception formats without calling it, is rendered. *)
Record AsyncResponse : Type := mkAsyncResponse {
  async_status : Z;
  async_text : string;
  async_json : Outcome Json;
  async_text_method : string
}.

(** [try: return <json> except ValueError: raise RequestException(...)]. *)
Definition json_or_request_error (parsed : Outcome Json) (text : string) : Handled :=
  match parsed with
  | Return document => Parsed document
  | Raise e =>
      if isinstance e ValueError
      then Failed (RequestError ("Invalid Response: " +:+ text))
      else Failed (Other e)
  end.

(** [SyncClient._handle_response]. *)
Definition SyncClient_handle_response (response : SyncResponse) : Handled :=
  if negb ((200 <=? sync_status_code response)%Z && (sync_status_code response <? 300)%Z)
  then raise_APIException (sync_text response) (sync_status_code response) (sync_text response)
  else json_or_request_error (sync_json response) (sync_text response).

(** [AsyncClient._handle_response]. *)
Definition AsyncClient_handle_response (response : AsyncResponse) : Handled :=
  if negb (String.prefix "2" (repr_int (async_status response)))
  then raise_APIException (async_text_method response) (async_status response)
         (async_text response)
  else json_or_request_error (async_json response) (async_text response).

End Responses.

End http_base_client.

(* ===================================================================== *)
(** * More concrete inputs *)
(* ===================================================================== *)

Module scenarios_rest.

Import logger_tools.

(** An INFO record as [logger.info("started")] produces it. *)
Definition info_record : LogRecord :=
  {| rec_name := "app";
     levelno := 20;
     levelname := "INFO";
     lineno := 12;
     funcName := "main";
     asctime := "2024-01-01 00:00:00,000";
     message := "[info] - started";
     exc_text := None |}.

Definition error_record : LogRecord :=
  {| rec_name := "app";
     levelno := 40;
     levelname := "ERROR";
     lineno := 30;
     funcName := "load";
     asctime := "2024-01-01 00:00:01,250";
     message := "[error] - no such file";
     exc_text := None |}.


(** A caller that has done nothing yet. *)
Definition idle : logger_tools_rest.Host :=
  {| logger_tools_rest.events := []; logger_tools_rest.started := [] |}.

(** A system on which every call fails. *)
Definition hostile : Sys :=
  {| os_path_exists := fun _ _ => false;
     os_mkdir := fun _ _ => Some scenarios.no_such_directory;
     open_log := fun _ _ => Some scenarios.no_such_directory;
     bot_init := fun _ _ => Some scenarios.timed_out |}.

(** [NiceLogger("app", enable_file=False)]. *)
Definition app_console_only : Params :=
  {| p_name := "app";
     p_fmt := _FORMAT;
     p_enable_file := false;
     p_enable_telegram := false;
     p_telegram_token := None;
     p_telegram_chat_ids := None;
     p_tele_run_async := true;
     p_colored := true;
     p_when := "midnight";
     p_backup_count := 2;
     p_encoding := "utf-8";
     p_log_folder := "logs" |}.

(** [NiceLogger("app", telegram_token="123:abc", telegram_chat_ids=[7])]:
    the flag left off, both credentials given. *)
Definition app_with_bot : Params :=
  {| p_name := "app";
     p_fmt := _FORMAT;
     p_enable_file := true;
     p_enable_telegram := false;
     p_telegram_token := Some "123:abc";
     p_telegram_chat_ids := Some [7];
     p_tele_run_async := true;
     p_colored := true;
     p_when := "midnight";
     p_backup_count := 2;
     p_encoding := "utf-8";
     p_log_folder := "logs" |}.

(** The locals of a method call [get_ticker(self, symbol, limit=None)]. *)
Definition method_locals : kwargs_t :=
  [ ("self", PyObj "<client>" true);
    ("symbol", PyStr "BTCUSDT");
    ("limit", PyNone) ].

Definition quoted (s : string) : string :=
  String dquote (s +:+ String dquote EmptyString).

(** The body of an error answer, and a parser that knows it. *)
Definition error_body : string :=
  "{" +:+ quoted "code" +:+ ": 404, " +:+ quoted "message" +:+ ": "
  +:+ quoted "no such market" +:+ ", " +:+ quoted "result" +:+ ": null}".

Definition parse_error_body (text : string) : option http_base_client.Json :=
  if String.eqb text error_body
  then Some (http_base_client.JObject
               [ ("code", PyInt 404);
                 ("message", PyStr "no such market");
                 ("result", PyNone) ])
  else None.

Definition sync_404 : http_base_client.SyncResponse :=
  {| http_base_client.sync_status_code := 404;
     http_base_client.sync_text := error_body;
     http_base_client.sync_json := Return (http_base_client.JOther PyNone) |}.

Definition async_404 : http_base_client.AsyncResponse :=
  {| http_base_client.async_status := 404;
     http_base_client.async_text := error_body;
     http_base_client.async_json := Return (http_base_client.JOther PyNone);
     http_base_client.async_text_method := "<bound method ClientResponse.text>" |}.

End scenarios_rest.

(* ===================================================================== *)
(** * logger_tools.py: delivery when anything may be raised *)
(* ===================================================================== *)

(** The delivery code of [TelegramHandler] and [BotLogger] once more, word
    for word, over surroundings that may end a call with any exception, a
    signal such as [KeyboardInterrupt] included, in which printing the
    diagnostic may itself fail, and in which a thread may fail to start. *)
Module logger_tools_wide.

Record Surroundings : Type := mkSurroundings {
  uuid4_head : logger_tools.World -> string;
  open_write : logger_tools.World -> string -> string -> option PyExc;
  bot_send_message : logger_tools.World -> Z -> string -> option PyExc;
  bot_send_document : logger_tools.World -> Z -> string -> option PyExc;
  print_fails : logger_tools.World -> PyExc -> option PyExc;
  thread_start_fails : logger_tools_rest.Host -> logger_tools_rest.Task -> option PyExc
}.

Definition raise_some {S} (failure : option PyExc) : M S unit :=
  match failure with
  | None => ret tt
  | Some e => throw e
  end.

Section Delivery.

Variable env : Surroundings.

Definition send_message (chat_id : Z) (text : string) : M logger_tools.World unit :=
  fun w => raise_some (bot_send_message env w chat_id text)
             (w ++ [logger_tools.SendMessage chat_id text]).

Definition send_document (chat_id : Z) (document : string) : M logger_tools.World unit :=
  fun w => raise_some (bot_send_document env w chat_id document)
             (w ++ [logger_tools.SendDocument chat_id document]).

Definition write_file (path content : string) : M logger_tools.World unit :=
  fun w => raise_some (open_write env w path content)
             (w ++ [logger_tools.WriteFile path content]).

Definition uuid4_first_group : M logger_tools.World string :=
  fun w => (Return (uuid4_head env w), w).

(** [print(e)]: the text of the exception becomes a printed line, unless
    producing or writing it fails. *)
Definition print (e : PyExc) : M logger_tools.World unit :=
  fun w => match print_fails env w e with
           | None => (Return tt, w ++ [logger_tools.Print (exc_str e)])
           | Some x => (Raise x, w)
           end.

Definition _send_message (self : logger_tools.TelegramHandler) (msg : string)
  : M logger_tools.World unit :=
  for_each (logger_tools.chat_ids self) (fun chat_id => send_message chat_id msg).

Definition _send_document (self : logger_tools.TelegramHandler) (doc : string)
  : M logger_tools.World unit :=
  for_each (logger_tools.chat_ids self) (fun chat_id => send_document chat_id doc).

Definition _send_as_document (self : logger_tools.TelegramHandler) (msg : string)
  : M logger_tools.World unit :=
  rand_name <- uuid4_first_group ;;
  write_file ("logs/" +:+ rand_name +:+ "-logs.txt") msg ;;;
  _send_document self ("logs/" +:+ rand_name +:+ "-logs.txt").

Definition send (self : logger_tools.TelegramHandler) (msg : string)
  : M logger_tools.World unit :=
  try_except
    (if len msg >? logger_tools._MAX_LEN self
     then _send_as_document self msg
     else _send_message self msg)
    (ExcOne Exception)
    (fun e => print e).

(** [Thread(target=..., args=(msg,)).start()]. *)
Definition Thread_start (task : logger_tools_rest.Task) : M logger_tools_rest.Host unit :=
  fun h => match thread_start_fails env h task with
           | None =>
               (Return tt,
                {| logger_tools_rest.events := logger_tools_rest.events h;
                   logger_tools_rest.started := logger_tools_rest.started h ++ [task] |})
           | Some e => (Raise e, h)
           end.

(** [TelegramHandler.emit]. *)
Definition emit (self : logger_tools.TelegramHandler) (record : logger_tools.LogRecord)
  : M logger_tools_rest.Host unit :=
  msg <- logger_tools_rest.returned (logger_tools_rest.format self record) ;;
  if logger_tools.run_async self
  then Thread_start (logger_tools_rest.Handler_send self msg)
  else logger_tools_rest.on_events (send self msg).

End Delivery.

(** The same three methods of [BotLogger], and its [log]. *)
Module BotLogger.

Section Delivery.

Variable env : Surroundings.

Definition _send_message (self : logger_tools_rest.BotLogger) (msg : string)
  : M logger_tools.World unit :=
  for_each (logger_tools_rest.__chat_ids self) (fun chat_id => send_message env chat_id msg).

Definition _send_document (self : logger_tools_rest.BotLogger) (doc : string)
  : M logger_tools.World unit :=
  for_each (logger_tools_rest.__chat_ids self) (fun chat_id => send_document env chat_id doc).

Definition _send_as_document (self : logger_tools_rest.BotLogger) (msg : string)
  : M logger_tools.World unit :=
  rand_name <- uuid4_first_group env ;;
  write_file env ("logs/" +:+ rand_name +:+ "-logs.txt") msg ;;;
  _send_document self ("logs/" +:+ rand_name +:+ "-logs.txt").

(** [BotLogger.log(msg, f_name, *args, **kwargs)], parameters bound. *)
Definition log (self : logger_tools_rest.BotLogger) (msg : string) (f_name : option string)
  (args : list PyVal) (kwargs : kwargs_t) : M logger_tools_rest.Host unit :=
  let _msg := logger_tools._make_message msg f_name args kwargs in
  let __msg :=
    "[" +:+ logger_tools_rest.__name self +:+ "]" +:+ logger_tools.newline
    +:+ logger_tools.newline +:+ _msg in
  try_except
    (if len __msg >? logger_tools_rest._MAX_LEN self then
       if logger_tools_rest.__run_async self
       then Thread_start env (logger_tools_rest.Bot_send_as_document self __msg)
       else logger_tools_rest.on_events (_send_as_document self __msg)
     else
       if logger_tools_rest.__run_async self
       then Thread_start env (logger_tools_rest.Bot_send_message self __msg)
       else logger_tools_rest.on_events (_send_message self __msg))
    (ExcOne Exception)
    (fun e => logger_tools_rest.on_events (print env e)).

End Delivery.

End BotLogger.

(** What a started thread does once it runs. *)
Definition run_task (env : Surroundings) (task : logger_tools_rest.Task)
  : M logger_tools.World unit :=
  match task with
  | logger_tools_rest.Handler_send self msg => send env self msg
  | logger_tools_rest.Bot_send_as_document self msg => BotLogger._send_as_document env self msg
  | logger_tools_rest.Bot_send_message self msg => BotLogger._send_message env self msg
  end.

(** Surroundings in which every failure is an instance of [Exception]. *)
Definition fails_with_exceptions_only (env : Surroundings) : Prop :=
  (forall w p t e, open_write env w p t = Some e -> isinstance e Exception = true)
  /\ (forall w c t e, bot_send_message env w c t = Some e -> isinstance e Exception = true)
  /\ (forall w c d e, bot_send_document env w c d = Some e -> isinstance e Exception = true).

(** Surroundings in which the diagnostic line can always be printed. *)
Definition print_succeeds (env : Surroundings) : Prop :=
  forall w e, print_fails env w e = None.

(** The surroundings of [logger_tools], seen as a case of these. *)
Definition widen (env : logger_tools.Env) : Surroundings :=
  {| uuid4_head := logger_tools.uuid4_head env;
     open_write := fun w p t => option_map std_exc (logger_tools.open_write env w p t);
     bot_send_message := fun w c t => option_map std_exc (logger_tools.bot_send_message env w c t);
     bot_send_document := fun w c d => option_map std_exc (logger_tools.bot_send_document env w c d);
     print_fails := fun _ _ => None;
     thread_start_fails := fun _ _ => None |}.

End logger_tools_wide.

Module scenarios_wide.

Import logger_tools_wide.

(** The user interrupts the program while the bot is talking to chat 2. *)
Definition interrupted : Surroundings :=
  {| uuid4_head := fun _ => "1a2b3c4d";
     open_write := fun _ _ _ => None;
     bot_send_message := fun _ chat _ =>
       if Z.eqb chat 2 then Some (mkExc KeyboardInterrupt EmptyString) else None;
     bot_send_document := fun _ _ _ => None;
     print_fails := fun _ _ => None;
     thread_start_fails := fun _ _ => None |}.

(** Chat 2 cannot be reached; the diagnostic can be printed. *)
Definition flaky : Surroundings :=
  {| uuid4_head := fun _ => "1a2b3c4d";
     open_write := fun _ _ _ => None;
     bot_send_message := fun _ chat _ =>
       if Z.eqb chat 2 then Some (mkExc NetworkError "Timed out") else None;
     bot_send_document := fun _ _ _ => None;
     print_fails := fun _ _ => None;
     thread_start_fails := fun _ _ => None |}.

(** Chat 2 cannot be reached, and standard output has been closed. *)
Definition stdout_closed : Surroundings :=
  {| uuid4_head := fun _ => "1a2b3c4d";
     open_write := fun _ _ _ => None;
     bot_send_message := fun _ chat _ =>
       if Z.eqb chat 2 then Some (mkExc NetworkError "Timed out") else None;
     bot_send_document := fun _ _ _ => None;
     print_fails := fun _ _ => Some (mkExc ValueError "I/O operation on closed file.");
     thread_start_fails := fun _ _ => None |}.

(** No folder [logs] to write into. *)
Definition no_logs_folder : Surroundings :=
  {| uuid4_head := fun _ => "1a2b3c4d";
     open_write := fun _ _ _ =>
       Some (mkExc FileNotFoundError "[Errno 2] No such file or directory");
     bot_send_message := fun _ _ _ => None;
     bot_send_document := fun _ _ _ => None;
     print_fails := fun _ _ => None;
     thread_start_fails := fun _ _ => None |}.

(** Every call succeeds. *)
Definition calm : Surroundings :=
  {| uuid4_head := fun _ => "1a2b3c4d";
     open_write := fun _ _ _ => None;
     bot_send_message := fun _ _ _ => None;
     bot_send_document := fun _ _ _ => None;
     print_fails := fun _ _ => None;
     thread_start_fails := fun _ _ => None |}.

(** The process has reached its limit of threads.  [RuntimeError] derives
    from [Exception]. *)
Definition no_more_threads : Surroundings :=
  {| uuid4_head := fun _ => "1a2b3c4d";
     open_write := fun _ _ _ => None;
     bot_send_message := fun _ _ _ => None;
     bot_send_document := fun _ _ _ => None;
     print_fails := fun _ _ => None;
     thread_start_fails := fun _ _ =>
       Some (mkExc (UserError "RuntimeError") "can't start new thread") |}.

End scenarios_wide.

(* ===================================================================== *)
(** * Facts about the Python fragment *)
(* ===================================================================== *)

Lemma append_cons (c : ascii) (s t : string) : String c s +:+ t = String c (s +:+ t).
Proof. reflexivity. Qed.

Lemma append_empty_l (t : string) : EmptyString +:+ t = t.
Proof. reflexivity. Qed.

Lemma append_empty_r (s : string) : s +:+ EmptyString = s.
Proof.
  induction s as [|c s IH]; [reflexivity | ].
  rewrite append_cons. f_equal. exact IH.
Qed.

Lemma append_assoc (a b c : string) : (a +:+ b) +:+ c = a +:+ (b +:+ c).
Proof.
  induction a as [|x a IH]; [reflexivity | ].
  rewrite !append_cons. f_equal. exact IH.
Qed.

Lemma len_filler (n : nat) : len (scenarios.filler n) = Z.of_nat n.
Proof.
  unfold len. f_equal.
  induction n as [|n IH]; [reflexivity | simpl; f_equal; exact IH].
Qed.

(** Every ordinary error is caught by [except Exception]. *)
Lemma std_error_matches (e : StdError) :
  except_match (ExcOne Exception) (std_exc e) = Return true.
Proof. simpl. now rewrite (std_is_exception e). Qed.

(** A signal outside [Exception] passes through [except Exception]. *)
Lemma try_except_passes_signal {S A} (body : M S A) (h : PyExc -> M S A) s s' m :
  body s = (Raise (mkExc KeyboardInterrupt m), s') ->
  try_except body (ExcOne Exception) h s = (Raise (mkExc KeyboardInterrupt m), s').
Proof. intros Hb. unfold try_except. now rewrite Hb. Qed.

Lemma for_each_cons {S A} (x : A) (xs : list A) (body : A -> M S unit) (s : S) :
  for_each (x :: xs) body s =
  match body x s with
  | (Return _, s') => for_each xs body s'
  | (Raise e, s') => (Raise e, s')
  end.
Proof. reflexivity. Qed.

Example repr_str_plain : repr_str "k" = "'k'".
Proof. reflexivity. Qed.

Example repr_str_quote :
  repr_str "it's" = String dquote ("it's" +:+ String dquote EmptyString).
Proof. reflexivity. Qed.

Example repr_str_newline : repr_str (String "010" "a") = "'\na'".
Proof. reflexivity. Qed.

Example repr_str_control : repr_str (String "001" EmptyString) = "'\x01'".
Proof. reflexivity. Qed.

Example repr_int_neg : repr_int (-12) = "-12".
Proof. reflexivity. Qed.

Example str_tuple_single : str_tuple [PyInt 1] = "(1,)".
Proof. reflexivity. Qed.

Example issubclass_fnf : issubclass FileNotFoundError Exception = true.
Proof. reflexivity. Qed.

Example issubclass_kbd : issubclass KeyboardInterrupt Exception = false.
Proof. reflexivity. Qed.

(* ===================================================================== *)
(** * func_tools: catch_exception_decorator *)
(* ===================================================================== *)

Section FuncToolsFacts.

Import func_tools.

Variables (func : Callable) (callback : PyExc -> Outcome PyVal).
Variables (default : PyVal) (args : list PyVal) (kwargs : kwargs_t) (w : World).

(** Nothing raised: the wrapper hands back the result and the callback is
    not involved, whatever [exceptions] is. *)
Lemma catch_exception_passes_result exceptions v :
  func args kwargs = Return v ->
  catch_exception_decorator func callback exceptions default args kwargs w = (Return v, w).
Proof.
  intros Hf. unfold catch_exception_decorator, try_except, call_func.
  now rewrite Hf.
Qed.

(** With a list of classes the [except] clause cannot match: whatever
    [func] raises is replaced by a [TypeError], and the callback is not
    called. *)
Lemma catch_exception_list_breaks classes e :
  func args kwargs = Raise e ->
  catch_exception_decorator func callback (Some (ExcList classes)) default args kwargs w =
  (Raise (mkExc TypeError
     "catching classes that do not inherit from BaseException is not allowed"), w).
Proof.
  intros Hf. unfold catch_exception_decorator, try_except, call_func.
  now rewrite Hf.
Qed.

(** The default [exceptions=None] becomes the list [[Exception]]. *)
Lemma catch_exception_default_breaks e :
  func args kwargs = Raise e ->
  catch_exception_decorator func callback None default args kwargs w =
  (Raise (mkExc TypeError
     "catching classes that do not inherit from BaseException is not allowed"), w).
Proof.
  intros Hf. unfold catch_exception_decorator, try_except, call_func.
  now rewrite Hf.
Qed.

(** With a tuple of classes the wrapper works as meant. *)
Lemma catch_exception_tuple_catches classes e r :
  func args kwargs = Raise e ->
  existsb (isinstance e) classes = true ->
  callback e = Return r ->
  catch_exception_decorator func callback (Some (ExcTuple classes)) default args kwargs w =
  (Return default, w ++ [e]).
Proof.
  intros Hf Hin Hcb.
  unfold catch_exception_decorator, try_except, call_func, except_match.
  rewrite Hf, Hin. unfold bind, call_callback. now rewrite Hcb.
Qed.

Lemma catch_exception_tuple_propagates classes e :
  func args kwargs = Raise e ->
  existsb (isinstance e) classes = false ->
  catch_exception_decorator func callback (Some (ExcTuple classes)) default args kwargs w =
  (Raise e, w).
Proof.
  intros Hf Hin.
  unfold catch_exception_decorator, try_except, call_func, except_match.
  now rewrite Hf, Hin.
Qed.

End FuncToolsFacts.

(** C10.  With [exceptions] left at its default or given as a list, as
    its annotation asks, a call in which [func] raises does not reach the
    callback and does not return the default: the [except] clause is handed
    a list, and the wrapper raises [TypeError] in place of the exception of
    [func]. *)
Theorem catch_exception_list_never_catches :
  forall (func : Callable) (callback : PyExc -> Outcome PyVal)
         (exceptions : option ExceptSpec) (default : PyVal)
         (args : list PyVal) (kwargs : kwargs_t) (w : func_tools.World) (e : PyExc),
    exceptions = None \/ (exists classes, exceptions = Some (ExcList classes)) ->
    func args kwargs = Raise e ->
    func_tools.catch_exception_decorator func callback exceptions default args kwargs w =
    (Raise (mkExc TypeError
       "catching classes that do not inherit from BaseException is not allowed"), w).
Proof.
  intros func callback exceptions default args kwargs w e [-> | [classes ->]] Hf.
  - now apply catch_exception_default_breaks with (e := e).
  - now apply catch_exception_list_breaks with (e := e).
Qed.

(** [catch_exception_decorator(failing, note, default=0)()], where
    [failing] raises [ValueError]: no callback call, a [TypeError]. *)
Lemma catch_exception_list_never_catches_witness :
  func_tools.catch_exception_decorator scenarios.failing scenarios.note None (PyInt 0) [] [] [] =
  (Raise (mkExc TypeError
     "catching classes that do not inherit from BaseException is not allowed"), []).
Proof.
  apply (catch_exception_list_never_catches scenarios.failing scenarios.note None
           (PyInt 0) [] [] [] (mkExc ValueError "boom")).
  - left. reflexivity.
  - reflexivity.
Defined.

(* ===================================================================== *)
(** * thread_tools *)
(* ===================================================================== *)

Section ThreadToolsFacts.

Import thread_tools.

Variables (func : Callable) (args : list PyVal) (kwargs : kwargs_t) (w : World).

(** The thread decorator starts [func] on the wrapper's own arguments
    and returns [None]. *)
Lemma run_in_thread_decorator_starts :
  kw_has "func" kwargs = false ->
  run_in_thread_decorator func args kwargs w =
  (Return PyNone, w ++ [ThreadStart func args kwargs]).
Proof.
  intros Hk. unfold run_in_thread_decorator, call_run_in_thread.
  now rewrite Hk.
Qed.

(** Without positional arguments the pool decorator submits [func] on the
    wrapper's keyword arguments. *)
Lemma run_in_threadpool_decorator_keywords_only :
  kw_has "func" kwargs = false ->
  kw_has "return_result" kwargs = false ->
  run_in_threadpool_decorator func [] kwargs w =
  (Return PyNone, w ++ [PoolSubmit func [] kwargs]).
Proof.
  intros Hf Hr. unfold run_in_threadpool_decorator, call_run_in_threadpool.
  rewrite Hf. unfold kw_has in Hr.
  destruct (kw_get "return_result" kwargs); [discriminate | reflexivity].
Qed.

(** With positional arguments the first one is taken for [return_result]
    and never reaches [func]. *)
Lemma run_in_threadpool_decorator_takes_first first :
  kw_has "func" kwargs = false ->
  kw_has "return_result" kwargs = false ->
  truthy first = false ->
  run_in_threadpool_decorator func (first :: args) kwargs w =
  (Return PyNone, w ++ [PoolSubmit func args kwargs]).
Proof.
  intros Hf Hr Ht. unfold run_in_threadpool_decorator, call_run_in_threadpool.
  rewrite Hf, Hr. unfold run_in_threadpool. now rewrite Ht.
Qed.

Lemma run_in_threadpool_decorator_takes_first_and_waits first :
  kw_has "func" kwargs = false ->
  kw_has "return_result" kwargs = false ->
  truthy first = true ->
  run_in_threadpool_decorator func (first :: args) kwargs w =
  (match func args kwargs with Return _ => Return PyNone | Raise e => Raise e end,
   (w ++ [PoolSubmit func args kwargs]) ++ [FutureResult]).
Proof.
  intros Hf Hr Ht. unfold run_in_threadpool_decorator, call_run_in_threadpool.
  rewrite Hf, Hr. unfold run_in_threadpool. rewrite Ht.
  unfold bind, submit, result, ret. simpl.
  now destruct (func args kwargs).
Qed.

End ThreadToolsFacts.

(** C6.  A call of the wrapper made by [run_in_threadpool_decorator]
    with at least one positional argument: the pool receives [func] with
    the remaining arguments only, the first one having been taken for
    [return_result]; when that first argument is true the wrapper also
    waits for the call.  The wrapper made by [run_in_thread_decorator]
    starts [func] on all of its arguments. *)
Theorem threadpool_decorator_drops_first_argument :
  forall (func : Callable) (first : PyVal) (rest : list PyVal) (kwargs : kwargs_t)
         (w : thread_tools.World),
    kw_has "func" kwargs = false ->
    kw_has "return_result" kwargs = false ->
    snd (thread_tools.run_in_threadpool_decorator func (first :: rest) kwargs w) =
      w ++ thread_tools.PoolSubmit func rest kwargs
           :: (if truthy first then [thread_tools.FutureResult] else [])
    /\ thread_tools.run_in_thread_decorator func (first :: rest) kwargs w =
      (Return PyNone, w ++ [thread_tools.ThreadStart func (first :: rest) kwargs]).
Proof.
  intros func first rest kwargs w Hf Hr. split.
  - destruct (truthy first) eqn:Ht.
    + rewrite run_in_threadpool_decorator_takes_first_and_waits by assumption.
      simpl. now rewrite <- app_assoc.
    + now rewrite run_in_threadpool_decorator_takes_first by assumption.
  - now apply run_in_thread_decorator_starts.
Qed.

(** The wrapped function called with (1, 2): submitted with (2,). *)
Lemma threadpool_decorator_drops_first_argument_witness :
  snd (thread_tools.run_in_threadpool_decorator scenarios.arity [PyInt 1; PyInt 2] [] []) =
  [thread_tools.PoolSubmit scenarios.arity [PyInt 2] []; thread_tools.FutureResult].
Proof.
  apply (proj1 (threadpool_decorator_drops_first_argument scenarios.arity
                  (PyInt 1) [PyInt 2] [] [] eq_refl eq_refl)).
Defined.

(** C7.  [run_in_threadpool] with [return_result] true submits the call,
    waits on its future and yields what the call yields: its value when it
    returns one; with [return_result] false it only submits the call and
    returns [None]. *)
Theorem run_in_threadpool_result :
  forall (func : Callable) (args : list PyVal) (kwargs : kwargs_t) (w : thread_tools.World),
    thread_tools.run_in_threadpool func (PyBool true) args kwargs w =
      (func args kwargs,
       w ++ [thread_tools.PoolSubmit func args kwargs; thread_tools.FutureResult])
    /\ (forall v, func args kwargs = Return v ->
          fst (thread_tools.run_in_threadpool func (PyBool true) args kwargs w) = Return v)
    /\ thread_tools.run_in_threadpool func (PyBool false) args kwargs w =
      (Return PyNone, w ++ [thread_tools.PoolSubmit func args kwargs]).
Proof.
  intros func args kwargs w.
  assert (Hwait : thread_tools.run_in_threadpool func (PyBool true) args kwargs w =
      (func args kwargs,
       w ++ [thread_tools.PoolSubmit func args kwargs; thread_tools.FutureResult])).
  { unfold thread_tools.run_in_threadpool, bind, thread_tools.submit, thread_tools.result.
    simpl. now rewrite <- app_assoc. }
  split; [exact Hwait | split].
  - intros v Hv. rewrite Hwait. exact Hv.
  - reflexivity.
Qed.

(** A call that returns 2, run through the pool with [return_result] true. *)
Lemma run_in_threadpool_result_witness :
  fst (thread_tools.run_in_threadpool scenarios.arity (PyBool true) [PyInt 5; PyInt 6] [] []) =
  Return (PyInt 2).
Proof.
  apply (proj1 (proj2 (run_in_threadpool_result scenarios.arity [PyInt 5; PyInt 6] [] []))).
  reflexivity.
Defined.

(* ===================================================================== *)
(** * logger_tools: message composition *)
(* ===================================================================== *)

Section MessageFacts.

Import logger_tools.

Lemma positive_length {A} (x : A) (l : list A) : (Z.of_nat (length (x :: l)) >? 0) = true.
Proof. rewrite Z.gtb_ltb. apply Z.ltb_lt. simpl length. lia. Qed.

(** The composed text, part by part. *)
Lemma make_message_shape msg f_name args kwargs :
  _make_message msg f_name args kwargs =
  ("[" +:+ str_optional f_name +:+ "] - " +:+ msg)
    +:+ (if is_nonempty args then " | " +:+ str_tuple args else EmptyString)
    +:+ (if is_nonempty kwargs then " | " +:+ str_dict kwargs else EmptyString).
Proof.
  unfold _make_message.
  destruct args as [|a args'], kwargs as [|k kwargs'];
    unfold is_nonempty; rewrite ?positive_length; cbv [andb];
    rewrite ?append_empty_l, ?append_empty_r, ?append_assoc; reflexivity.
Qed.

End MessageFacts.

(** C4.  Without context the composed text is the tag in brackets, a
    dash and the message; positional context adds a bar and the tuple
    text, keyword context adds a bar and the dictionary text, positional
    before keyword. *)
Theorem make_message_spec :
  forall (msg tag : string) (args : list PyVal) (kwargs : kwargs_t),
    let head := "[" +:+ tag +:+ "] - " +:+ msg in
    logger_tools._make_message msg (Some tag) [] [] = head
    /\ (args <> [] ->
        logger_tools._make_message msg (Some tag) args [] =
        head +:+ " | " +:+ str_tuple args)
    /\ (kwargs <> [] ->
        logger_tools._make_message msg (Some tag) [] kwargs =
        head +:+ " | " +:+ str_dict kwargs)
    /\ (args <> [] -> kwargs <> [] ->
        logger_tools._make_message msg (Some tag) args kwargs =
        head +:+ " | " +:+ str_tuple args +:+ " | " +:+ str_dict kwargs)
    /\ logger_tools._make_message "x" (Some "t") [PyInt 1; PyInt 2] [] = "[t] - x | (1, 2)"
    /\ logger_tools._make_message "x" (Some "t") [] [("k", PyInt 1)] = "[t] - x | {'k': 1}".
Proof.
  intros msg tag args kwargs head. subst head.
  repeat split; try reflexivity.
  - intros Ha. rewrite make_message_shape. simpl logger_tools.str_optional.
    destruct args as [|a args']; [congruence | ].
    unfold logger_tools.is_nonempty.
    now rewrite append_empty_r.
  - intros Hk. rewrite make_message_shape. simpl logger_tools.str_optional.
    destruct kwargs as [|k kwargs']; [congruence | ].
    unfold logger_tools.is_nonempty.
    now rewrite append_empty_l.
  - intros Ha Hk. rewrite make_message_shape. simpl logger_tools.str_optional.
    destruct args as [|a args']; [congruence | ].
    destruct kwargs as [|k kwargs']; [congruence | ].
    unfold logger_tools.is_nonempty.
    reflexivity.
Qed.

(** The message done with one positional and one keyword value. *)
Lemma make_message_spec_witness :
  logger_tools._make_message "done" (Some "job") [PyStr "a"] [("n", PyInt 3)] =
  "[job] - done | ('a',) | {'n': 3}".
Proof.
  refine (eq_trans
    (proj1 (proj2 (proj2 (proj2
       (make_message_spec "done" "job" [PyStr "a"] [("n", PyInt 3)])))) _ _) _);
    [discriminate | discriminate | reflexivity].
Defined.

(* ===================================================================== *)
(** * logger_tools: ColoredFormatter *)
(* ===================================================================== *)

Section FormatterFacts.

Import logger_tools.

Lemma count_esc_append (a b : string) :
  count_esc (a +:+ b) = (count_esc a + count_esc b)%nat.
Proof.
  induction a as [|c a IH]; [reflexivity | ].
  rewrite append_cons. simpl. rewrite IH. lia.
Qed.

Lemma count_esc_body (name fmt : string) :
  count_esc ("[" +:+ name +:+ "] - " +:+ fmt) = (count_esc name + count_esc fmt)%nat.
Proof. rewrite !count_esc_append. simpl. lia. Qed.

(** The five colour codes are graphic-rendition codes, and none of them
    is the reset code. *)
Lemma color_codes_wellformed :
  Forall (fun c => is_sgr c = true /\ c <> reset /\ count_esc c = 1%nat)
    [blue; grey; yellow; red; bold_red].
Proof. repeat constructor; discriminate. Qed.

Lemma reset_wellformed : is_sgr reset = true /\ count_esc reset = 1%nat.
Proof. split; reflexivity. Qed.

Variables (name fmt : string).

Let body : string := "[" +:+ name +:+ "] - " +:+ fmt.

(** The table with colours: each level's own code, the body, the reset. *)
Lemma colored_table :
  formats (ColoredFormatter_init name fmt true) !! DEBUG = Some (blue +:+ body +:+ reset)
  /\ formats (ColoredFormatter_init name fmt true) !! INFO = Some (grey +:+ body +:+ reset)
  /\ formats (ColoredFormatter_init name fmt true) !! WARNING = Some (yellow +:+ body +:+ reset)
  /\ formats (ColoredFormatter_init name fmt true) !! ERROR = Some (red +:+ body +:+ reset)
  /\ formats (ColoredFormatter_init name fmt true) !! CRITICAL = Some (bold_red +:+ body +:+ reset).
Proof. repeat split. Qed.

(** The table without colours: the body alone, at every level. *)
Lemma plain_table (l : Z) :
  In l standard_levels ->
  formats (ColoredFormatter_init name fmt false) !! l = Some body.
Proof.
  intros Hl. simpl in Hl.
  destruct Hl as [<-|[<-|[<-|[<-|[<-|[]]]]]]; reflexivity.
Qed.

(** What the wrapping adds: two escape characters, or none. *)
Lemma colored_adds_two (l : Z) (t : string) :
  formats (ColoredFormatter_init name fmt true) !! l = Some t ->
  count_esc t = (2 + count_esc body)%nat.
Proof.
  intros Ht.
  assert (Hin : In l standard_levels).
  { destruct (decide (In l standard_levels)) as [H|H]; [exact H | exfalso].
    simpl in H. unfold ColoredFormatter_init in Ht. simpl in Ht.
    rewrite !lookup_insert_ne, lookup_empty in Ht by tauto. discriminate. }
  destruct colored_table as (Hd & Hi & Hw & He & Hc).
  simpl in Hin.
  destruct Hin as [<-|[<-|[<-|[<-|[<-|[]]]]]];
    [rewrite Hd in Ht | rewrite Hi in Ht | rewrite Hw in Ht
    | rewrite He in Ht | rewrite Hc in Ht];
    injection Ht as <-; rewrite !count_esc_append; simpl; lia.
Qed.

(** A level outside the five has no entry, with or without colours. *)
Lemma unknown_level_lookup (colored : bool) (l : Z) :
  ~ In l standard_levels ->
  formats (ColoredFormatter_init name fmt colored) !! l = None.
Proof.
  intros Hl. simpl in Hl.
  unfold ColoredFormatter_init.
  destruct colored; simpl;
    rewrite !lookup_insert_ne by tauto; apply lookup_empty.
Qed.

Lemma known_level_lookup (colored : bool) (l : Z) :
  In l standard_levels ->
  exists t, formats (ColoredFormatter_init name fmt colored) !! l = Some t.
Proof.
  intros Hl. simpl in Hl.
  destruct colored;
    destruct Hl as [<-|[<-|[<-|[<-|[<-|[]]]]]]; eexists; reflexivity.
Qed.

End FormatterFacts.

Section RenderingFacts.

Import logger_tools.

Lemma default_template_renders (r : LogRecord) :
  percent_format InText default_format (record_dict r) = Return (message r).
Proof.
  transitivity (Return (message r +:+ EmptyString) : Outcome string).
  - reflexivity.
  - now rewrite append_empty_r.
Qed.

(** Rendering through the default template cannot fail. *)
Lemma default_rendering (r : LogRecord) :
  Formatter_format None r =
  Return (match exc_text r with
          | Some t =>
              if String.eqb t EmptyString then message r
              else (if ends_with_newline (message r) then message r
                    else message r +:+ newline) +:+ t
          | None => message r
          end).
Proof.
  unfold Formatter_format. rewrite default_template_renders.
  destruct (exc_text r) as [t|]; [ | reflexivity].
  now destruct (String.eqb t EmptyString).
Qed.

End RenderingFacts.

(** C8, as amended.  For a component name and a template string that
    carry no escape character of their own, and each of the five levels:
    with colours the template is one colour code, the body and the reset
    code, two codes in all; without colours it is the body alone, the same
    at every level and free of codes. *)
Theorem formatter_templates_of_plain_text :
  forall (name fmt : string) (l : Z),
    logger_tools.count_esc name = 0%nat ->
    logger_tools.count_esc fmt = 0%nat ->
    In l logger_tools.standard_levels ->
    let body := "[" +:+ name +:+ "] - " +:+ fmt in
    (exists color,
        logger_tools.is_sgr color = true /\ color <> logger_tools.reset /\
        logger_tools.formats (logger_tools.ColoredFormatter_init name fmt true) !! l =
          Some (color +:+ body +:+ logger_tools.reset) /\
        logger_tools.count_esc color = 1%nat /\
        logger_tools.count_esc (color +:+ body +:+ logger_tools.reset) = 2%nat)
    /\ logger_tools.formats (logger_tools.ColoredFormatter_init name fmt false) !! l = Some body
    /\ logger_tools.count_esc body = 0%nat.
Proof.
  intros name fmt l Hn Hf Hl body.
  assert (Hb : logger_tools.count_esc body = 0%nat).
  { subst body. rewrite count_esc_body. lia. }
  split; [ | split; [now apply plain_table | exact Hb]].
  destruct (colored_table name fmt) as (Hd & Hi & Hw & He & Hc).
  cbv zeta in Hd, Hi, Hw, He, Hc. subst body.
  simpl in Hl.
  destruct Hl as [<-|[<-|[<-|[<-|[<-|[]]]]]];
    [exists logger_tools.blue | exists logger_tools.grey | exists logger_tools.yellow
    | exists logger_tools.red | exists logger_tools.bold_red];
    (repeat split; [discriminate | ]);
    rewrite !count_esc_append in *; simpl in *; lia.
Qed.

(** The default template under the name app, at the WARNING level. *)
Lemma formatter_templates_of_plain_text_witness :
  logger_tools.formats
    (logger_tools.ColoredFormatter_init "app" logger_tools._FORMAT false) !! 30 =
  Some ("[" +:+ "app" +:+ "] - " +:+ logger_tools._FORMAT).
Proof.
  apply (proj1 (proj2
    (formatter_templates_of_plain_text "app" logger_tools._FORMAT 30
       eq_refl eq_refl (or_intror (or_intror (or_introl eq_refl)))))).
Defined.

(** C8, counterexample.  A component name that itself holds an escape
    code shows up in the templates: with the reset code as name, the plain
    DEBUG template holds one code and the coloured one holds three. *)
Lemma escape_in_name_reaches_template :
  logger_tools.count_esc logger_tools.reset = 1%nat
  /\ option_map logger_tools.count_esc
       (logger_tools.formats
          (logger_tools.ColoredFormatter_init logger_tools.reset logger_tools._FORMAT false)
        !! logger_tools.DEBUG) = Some 1%nat
  /\ option_map logger_tools.count_esc
       (logger_tools.formats
          (logger_tools.ColoredFormatter_init logger_tools.reset logger_tools._FORMAT true)
        !! logger_tools.DEBUG) = Some 3%nat.
Proof. repeat split. Qed.

(** C9.  A record whose level is none of the five: the table has no
    entry for it, the lookup yields nothing instead of failing, and the
    record is rendered through the default template, which gives its
    message; each of the five levels has one entry, and the table has no
    other key. *)
Theorem unknown_level_uses_default_template :
  forall (name fmt : string) (colored : bool) (r : logger_tools.LogRecord),
    ~ In (logger_tools.levelno r) logger_tools.standard_levels ->
    let F := logger_tools.ColoredFormatter_init name fmt colored in
    logger_tools.formats F !! logger_tools.levelno r = None
    /\ logger_tools.ColoredFormatter_format F r = logger_tools.Formatter_format None r
    /\ (exists s, logger_tools.ColoredFormatter_format F r = Return s)
    /\ (logger_tools.exc_text r = None ->
        logger_tools.ColoredFormatter_format F r = Return (logger_tools.message r))
    /\ (forall l, In l logger_tools.standard_levels ->
        exists! t, logger_tools.formats F !! l = Some t)
    /\ (forall l t, logger_tools.formats F !! l = Some t -> In l logger_tools.standard_levels).
Proof.
  intros name fmt colored r Hr F.
  assert (Hnone : logger_tools.formats F !! logger_tools.levelno r = None)
    by now apply unknown_level_lookup.
  assert (Hfmt : logger_tools.ColoredFormatter_format F r = logger_tools.Formatter_format None r).
  { unfold logger_tools.ColoredFormatter_format. now rewrite Hnone. }
  repeat split.
  - exact Hnone.
  - exact Hfmt.
  - rewrite Hfmt, default_rendering. eauto.
  - intros Hx. rewrite Hfmt, default_rendering. now rewrite Hx.
  - intros l Hl. destruct (known_level_lookup name fmt colored l Hl) as [t Ht].
    exists t. split; [exact Ht | ]. intros t' Ht'. subst F. congruence.
  - intros l t Ht.
    destruct (decide (In l logger_tools.standard_levels)) as [H|H]; [exact H | ].
    subst F. rewrite (unknown_level_lookup name fmt colored l H) in Ht. discriminate.
Qed.

(** A record at level 25 goes through the default template. *)
Lemma unknown_level_uses_default_template_witness :
  logger_tools.ColoredFormatter_format
    (logger_tools.ColoredFormatter_init "app" logger_tools._FORMAT true)
    scenarios.notice_record = Return "[info] - started".
Proof.
  refine (proj1 (proj2 (proj2 (proj2
    (unknown_level_uses_default_template "app" logger_tools._FORMAT true
       scenarios.notice_record _)))) eq_refl).
  simpl. intros [H|[H|[H|[H|[H|[]]]]]]; discriminate H.
Defined.

(* ===================================================================== *)
(** * logger_tools: TelegramHandler.send *)
(* ===================================================================== *)

Section DeliveryFacts.

Import logger_tools.

(** A loop of calls on the bot: all of them are made, or the loop stops
    at the first call that fails, with an ordinary error. *)
Lemma loop_trace (answer : World -> Z -> option StdError) (ev : Z -> Event) :
  forall (ids : list Z) (w : World),
    let loop := for_each ids (fun c w0 => raise_if (answer w0 c) (w0 ++ [ev c])) in
    loop w = (Return tt, w ++ map ev ids)
    \/ exists k e, (k < length ids)%nat
         /\ loop w = (Raise (std_exc e), w ++ map ev (take (S k) ids)).
Proof.
  induction ids as [|c ids IH]; intros w loop; subst loop.
  - left. simpl. unfold ret. now rewrite app_nil_r.
  - rewrite !for_each_cons.
    destruct (answer w c) as [e|] eqn:Ha.
    + right. exists 0%nat, e. split; [simpl; lia | ].
      reflexivity.
    + simpl raise_if. unfold ret.
      destruct (IH (w ++ [ev c])) as [Hok | (k & e & Hk & Hfail)].
      * left. rewrite Hok. now rewrite <- app_assoc.
      * right. exists (S k), e. split; [simpl; lia | ].
        rewrite Hfail. simpl. now rewrite <- app_assoc.
Qed.

(** When no call fails, all of them are made. *)
Lemma loop_all (answer : World -> Z -> option StdError) (ev : Z -> Event) :
  (forall w c, answer w c = None) ->
  forall (ids : list Z) (w : World),
    for_each ids (fun c w0 => raise_if (answer w0 c) (w0 ++ [ev c])) w =
    (Return tt, w ++ map ev ids).
Proof.
  intros Hnone. induction ids as [|c ids IH]; intros w.
  - simpl. unfold ret. now rewrite app_nil_r.
  - rewrite for_each_cons, Hnone. simpl raise_if. unfold ret.
    rewrite IH. now rewrite <- app_assoc.
Qed.

Variable env : Env.

Lemma send_message_loop (ids : list Z) (msg : string) (w : World) :
  for_each ids (fun chat_id => send_message env chat_id msg) w =
    (Return tt, w ++ message_calls ids msg)
  \/ exists k e, (k < length ids)%nat
       /\ for_each ids (fun chat_id => send_message env chat_id msg) w =
          (Raise (std_exc e), w ++ message_calls (take (S k) ids) msg).
Proof.
  exact (loop_trace (fun w0 c => bot_send_message env w0 c msg)
           (fun c => SendMessage c msg) ids w).
Qed.

Lemma send_document_loop (ids : list Z) (doc : string) (w : World) :
  for_each ids (fun chat_id => send_document env chat_id doc) w =
    (Return tt, w ++ document_calls ids doc)
  \/ exists k e, (k < length ids)%nat
       /\ for_each ids (fun chat_id => send_document env chat_id doc) w =
          (Raise (std_exc e), w ++ document_calls (take (S k) ids) doc).
Proof.
  exact (loop_trace (fun w0 c => bot_send_document env w0 c doc)
           (fun c => SendDocument c doc) ids w).
Qed.

(** Catching an ordinary error prints its text and returns. *)
Lemma caught (body : M World unit) (w w' : World) (e : StdError) :
  body w = (Raise (std_exc e), w') ->
  try_except body (ExcOne Exception) (fun x => print (exc_str x)) w =
  (Return tt, w' ++ [Print (exc_str (std_exc e))]).
Proof.
  intros Hb. unfold try_except. rewrite Hb, std_error_matches. reflexivity.
Qed.

Lemma not_raised (body : M World unit) (w w' : World) :
  body w = (Return tt, w') ->
  try_except body (ExcOne Exception) (fun x => print (exc_str x)) w = (Return tt, w').
Proof. intros Hb. unfold try_except. now rewrite Hb. Qed.

(** Message delivery, caught. *)
Lemma message_branch (h : TelegramHandler) (msg : string) (w : World) :
  exists new,
    try_except (_send_message env h msg) (ExcOne Exception)
      (fun x => print (exc_str x)) w = (Return tt, w ++ new)
    /\ sent_as_message (chat_ids h) msg new.
Proof.
  unfold _send_message.
  destruct (send_message_loop (chat_ids h) msg w) as [Hok | (k & e & Hk & Hfail)].
  - exists (message_calls (chat_ids h) msg). split; [now apply not_raised | now left].
  - exists (message_calls (take (S k) (chat_ids h)) msg ++ [Print (exc_str (std_exc e))]).
    split.
    + rewrite (caught _ _ _ _ Hfail). now rewrite <- app_assoc.
    + right. now exists k, (exc_str (std_exc e)).
Qed.

(** What document delivery does before it is caught. *)
Lemma document_steps (h : TelegramHandler) (msg : string) (w : World) :
  let path := "logs/" +:+ uuid4_head env w +:+ "-logs.txt" in
  _send_as_document env h msg w =
    (Return tt, w ++ WriteFile path msg :: document_calls (chat_ids h) path)
  \/ (exists e, _send_as_document env h msg w = (Raise (std_exc e), w ++ [WriteFile path msg]))
  \/ exists k e, (k < length (chat_ids h))%nat
       /\ _send_as_document env h msg w =
          (Raise (std_exc e),
           w ++ WriteFile path msg :: document_calls (take (S k) (chat_ids h)) path).
Proof.
  intros path. unfold _send_as_document, bind, uuid4_first_group, write_file.
  fold path.
  destruct (open_write env w path msg) as [e|].
  - right; left. now exists e.
  - simpl raise_if. unfold ret. unfold _send_document.
    destruct (send_document_loop (chat_ids h) path (w ++ [WriteFile path msg]))
      as [Hok | (k & e & Hk & Hfail)].
    + left. rewrite Hok. now rewrite <- app_assoc.
    + right; right. exists k, e. split; [exact Hk | ].
      rewrite Hfail. now rewrite <- app_assoc.
Qed.

(** Document delivery, caught. *)
Lemma document_branch (h : TelegramHandler) (msg : string) (w : World) :
  exists new,
    try_except (_send_as_document env h msg) (ExcOne Exception)
      (fun x => print (exc_str x)) w = (Return tt, w ++ new)
    /\ sent_as_document (chat_ids h) msg new.
Proof.
  pose (path := "logs/" +:+ uuid4_head env w +:+ "-logs.txt").
  destruct (document_steps h msg w) as [Hok | [(e & Hfail) | (k & e & Hk & Hfail)]];
    fold path in Hok || fold path in Hfail.
  - exists (WriteFile path msg :: document_calls (chat_ids h) path).
    split; [now apply not_raised | ]. exists path. now left.
  - exists [WriteFile path msg; Print (exc_str (std_exc e))].
    split.
    + rewrite (caught _ _ _ _ Hfail). now rewrite <- app_assoc.
    + exists path. right; left. now exists (exc_str (std_exc e)).
  - exists (WriteFile path msg :: document_calls (take (S k) (chat_ids h)) path
            ++ [Print (exc_str (std_exc e))]).
    split.
    + rewrite (caught _ _ _ _ Hfail). now rewrite <- app_assoc.
    + exists path. right; right. now exists k, (exc_str (std_exc e)).
Qed.

(** The branch [send] takes. *)
Lemma send_short (h : TelegramHandler) (msg : string) (w : World) :
  len msg <= _MAX_LEN h ->
  send env h msg w =
  try_except (_send_message env h msg) (ExcOne Exception) (fun x => print (exc_str x)) w.
Proof.
  intros Hl. unfold send.
  replace (len msg >? _MAX_LEN h) with false; [reflexivity | ].
  symmetry. rewrite Z.gtb_ltb. apply Z.ltb_ge. exact Hl.
Qed.

Lemma send_long (h : TelegramHandler) (msg : string) (w : World) :
  len msg > _MAX_LEN h ->
  send env h msg w =
  try_except (_send_as_document env h msg) (ExcOne Exception) (fun x => print (exc_str x)) w.
Proof.
  intros Hl. unfold send.
  replace (len msg >? _MAX_LEN h) with true; [reflexivity | ].
  symmetry. rewrite Z.gtb_ltb. apply Z.ltb_lt. lia.
Qed.

End DeliveryFacts.

(** C1.  [send] delivers a text of at most 4096 characters as plain
    messages and a longer one as a document; the empty text and a text of
    4096 characters go out as messages, a text of 4097 characters as a
    document.  When no call fails the messages, or the file and the
    documents, reach every destination in list order. *)
Theorem send_chooses_delivery_by_length :
  forall (env : logger_tools.Env) (token : string) (ids : list Z) (async : bool)
         (msg : string) (w : logger_tools.World),
    let h := logger_tools.TelegramHandler_init token ids async in
    (len msg <= 4096 ->
       exists new, logger_tools.send env h msg w = (Return tt, w ++ new)
                   /\ logger_tools.sent_as_message ids msg new)
    /\ (len msg > 4096 ->
       exists new, logger_tools.send env h msg w = (Return tt, w ++ new)
                   /\ logger_tools.sent_as_document ids msg new)
    /\ (exists new, logger_tools.send env h EmptyString w = (Return tt, w ++ new)
                   /\ logger_tools.sent_as_message ids EmptyString new)
    /\ (exists new, logger_tools.send env h (scenarios.filler 4096) w = (Return tt, w ++ new)
                   /\ logger_tools.sent_as_message ids (scenarios.filler 4096) new)
    /\ (exists new, logger_tools.send env h (scenarios.filler 4097) w = (Return tt, w ++ new)
                   /\ logger_tools.sent_as_document ids (scenarios.filler 4097) new)
    /\ (len msg <= 4096 ->
        (forall w0 c t, logger_tools.bot_send_message env w0 c t = None) ->
        logger_tools.send env h msg w = (Return tt, w ++ logger_tools.message_calls ids msg))
    /\ (len msg > 4096 ->
        (forall w0 p t, logger_tools.open_write env w0 p t = None) ->
        (forall w0 c d, logger_tools.bot_send_document env w0 c d = None) ->
        let path := "logs/" +:+ logger_tools.uuid4_head env w +:+ "-logs.txt" in
        logger_tools.send env h msg w =
        (Return tt,
         w ++ logger_tools.WriteFile path msg :: logger_tools.document_calls ids path)).
Proof.
  intros env token ids async msg w h.
  assert (Hshort : forall m, len m <= 4096 ->
            exists new, logger_tools.send env h m w = (Return tt, w ++ new)
                        /\ logger_tools.sent_as_message ids m new).
  { intros m Hm. rewrite send_short by exact Hm. apply (message_branch env h m w). }
  assert (Hlong : forall m, len m > 4096 ->
            exists new, logger_tools.send env h m w = (Return tt, w ++ new)
                        /\ logger_tools.sent_as_document ids m new).
  { intros m Hm. rewrite send_long by exact Hm. apply (document_branch env h m w). }
  split; [apply Hshort | ].
  split; [apply Hlong | ].
  split; [apply Hshort; unfold len; simpl; lia | ].
  split; [apply Hshort; rewrite len_filler; lia | ].
  split; [apply Hlong; rewrite len_filler; lia | ].
  split.
  - intros Hm Hbot. rewrite send_short by exact Hm.
    apply not_raised. unfold logger_tools._send_message.
    exact (loop_all (fun w0 c => logger_tools.bot_send_message env w0 c msg)
             (fun c => logger_tools.SendMessage c msg) (fun w0 c => Hbot w0 c msg) ids w).
  - intros Hm Hfile Hbot path. rewrite send_long by exact Hm.
    apply not_raised.
    unfold logger_tools._send_as_document, bind, logger_tools.uuid4_first_group,
      logger_tools.write_file.
    fold path. rewrite Hfile. simpl raise_if. unfold ret.
    unfold logger_tools._send_document.
    rewrite (loop_all (fun w0 c => logger_tools.bot_send_document env w0 c path)
               (fun c => logger_tools.SendDocument c path) (fun w0 c => Hbot w0 c path)).
    now rewrite <- app_assoc.
Qed.

(** Three destinations, all reachable: a short text goes to each of
    them as a message. *)
Lemma send_chooses_delivery_by_length_witness :
  logger_tools.send scenarios.reliable
    (logger_tools.TelegramHandler_init "123:abc" [1; 2; 3] false) "hello" [] =
  (Return tt,
   [logger_tools.SendMessage 1 "hello"; logger_tools.SendMessage 2 "hello";
    logger_tools.SendMessage 3 "hello"]).
Proof.
  refine (proj1 (proj2 (proj2 (proj2 (proj2 (proj2
    (send_chooses_delivery_by_length scenarios.reliable "123:abc" [1; 2; 3] false
       "hello" [])))))) _ _).
  - vm_compute. discriminate.
  - intros w0 c t. reflexivity.
Defined.

(* ===================================================================== *)
(** * logger_tools: the constructor of NiceLogger *)
(* ===================================================================== *)

(** Unfold the constructor as far as the next answer of the system. *)
Ltac run_init :=
  cbv [logger_tools.construct logger_tools.__init__ logger_tools.__handle_telegram
       logger_tools._make_folder logger_tools.path_exists logger_tools.mkdir
       logger_tools.open_log_file logger_tools.Bot
       logger_tools.new_TimedRotatingFileHandler logger_tools.new_TelegramHandler
       bind ret throw raise_if app fst snd andb negb
       logger_tools.update logger_tools.get_self logger_tools.when_
       logger_tools.initial logger_tools.is_None logger_tools.set_private
       logger_tools.set_enable_telegram logger_tools.set_name logger_tools.setLevel
       logger_tools.addHandler logger_tools.blank
       logger_tools.self logger_tools.calls logger_tools.handlers
       logger_tools.__enable_file logger_tools.__enable_telegram
       logger_tools.__telegram_token logger_tools.__telegram_chat_ids
       logger_tools.__tele_run_async logger_tools.name logger_tools.level
       logger_tools.p_name logger_tools.p_fmt logger_tools.p_enable_file
       logger_tools.p_enable_telegram logger_tools.p_telegram_token
       logger_tools.p_telegram_chat_ids logger_tools.p_tele_run_async
       logger_tools.p_colored logger_tools.p_when logger_tools.p_backup_count
       logger_tools.p_encoding logger_tools.p_log_folder].

(** Case on that answer. *)
Ltac ask sys :=
  match goal with
  | |- context [logger_tools.os_path_exists sys ?c ?f] =>
      destruct (logger_tools.os_path_exists sys c f) eqn:?
  | |- context [logger_tools.os_mkdir sys ?c ?f] =>
      destruct (logger_tools.os_mkdir sys c f) eqn:?
  | |- context [logger_tools.open_log sys ?c ?f] =>
      destruct (logger_tools.open_log sys c f) eqn:?
  | |- context [logger_tools.bot_init sys ?c ?t] =>
      destruct (logger_tools.bot_init sys c t) eqn:?
  end.

(** Run the constructor to its end along every course of answers. *)
Ltac crank sys := run_init; repeat (ask sys; run_init).

Section ConstructionFacts.

Import logger_tools.

Variable sys : Sys.

(** The flag without a token: rejected at once. *)
Lemma rejects_missing_token (p : Params) :
  p_enable_telegram p = true ->
  p_telegram_token p = None ->
  construct sys p =
  (Raise (mkExc ValueError "When enable_telegram is True, Telegram token is required"),
   {| self := set_private p blank; calls := [] |}).
Proof.
  destruct p as [nm fm ef et tok ids async col wh bc enc lf]; simpl.
  intros -> ->. reflexivity.
Qed.

(** The flag with a token but without destinations: rejected at once. *)
Lemma rejects_missing_chat_ids (p : Params) (t : string) :
  p_enable_telegram p = true ->
  p_telegram_token p = Some t ->
  p_telegram_chat_ids p = None ->
  construct sys p =
  (Raise (mkExc ValueError "When enable_telegram is True, Telegram chat ids are required"),
   {| self := set_private p blank; calls := [] |}).
Proof.
  destruct p as [nm fm ef et tok ids async col wh bc enc lf]; simpl.
  intros -> -> ->. reflexivity.
Qed.

(** A finished logger carries the notification sink exactly when the
    flag was set or both credentials were given. *)
Lemma sink_iff_enabled (p : Params) :
  fst (construct sys p) = Return tt ->
  (existsb is_telegram (handlers (self (snd (construct sys p)))) = true <->
   p_enable_telegram p = true
   \/ (p_telegram_token p <> None /\ p_telegram_chat_ids p <> None)).
Proof.
  destruct p as [nm fm ef et tok ids async col wh bc enc lf].
  destruct et, tok as [t|], ids as [l|], ef; crank sys; simpl;
    intros Hok; try discriminate Hok;
    (split; [intros H; try discriminate H; auto | intros [H|[H1 H2]]; congruence || auto]).
  all: left; reflexivity || (right; split; discriminate).
Qed.

(** The sink is built from the token and the destinations given. *)
Lemma telegram_sink_has_credentials (p : Params) (h : TelegramHandler) :
  In (TelegramSink h) (handlers (self (snd (construct sys p)))) ->
  exists t l,
    p_telegram_token p = Some t /\ p_telegram_chat_ids p = Some l
    /\ h = TelegramHandler_init t l (p_tele_run_async p).
Proof.
  destruct p as [nm fm ef et tok ids async col wh bc enc lf].
  destruct et, tok as [t|], ids as [l|], ef; crank sys; simpl;
    intros Hin; repeat (destruct Hin as [Hin|Hin]; try discriminate Hin);
    try contradiction;
    injection Hin as <-; eauto.
Qed.

End ConstructionFacts.

(** C3, as amended.  With the flag set and the token or the destination
    list missing, the constructor raises [ValueError] before any sink is
    attached and before any call on the system.  When the constructor
    succeeds, the notification sink is attached exactly when the flag was
    set or both token and destination list were given, and it is built
    from that token and that list, which may be empty. *)
Theorem notification_validation :
  forall (sys : logger_tools.Sys) (p : logger_tools.Params),
    let r := logger_tools.construct sys p in
    (logger_tools.p_enable_telegram p = true ->
     logger_tools.p_telegram_token p = None \/ logger_tools.p_telegram_chat_ids p = None ->
     exists text,
       fst r = Raise (mkExc ValueError text)
       /\ logger_tools.handlers (logger_tools.self (snd r)) = []
       /\ logger_tools.calls (snd r) = [])
    /\ (fst r = Return tt ->
        (existsb logger_tools.is_telegram (logger_tools.handlers (logger_tools.self (snd r))) = true
         <-> logger_tools.p_enable_telegram p = true
             \/ (logger_tools.p_telegram_token p <> None
                 /\ logger_tools.p_telegram_chat_ids p <> None)))
    /\ (forall h,
        In (logger_tools.TelegramSink h) (logger_tools.handlers (logger_tools.self (snd r))) ->
        exists t l,
          logger_tools.p_telegram_token p = Some t
          /\ logger_tools.p_telegram_chat_ids p = Some l
          /\ h = logger_tools.TelegramHandler_init t l (logger_tools.p_tele_run_async p)).
Proof.
  intros sys p r. subst r. split; [ | split].
  - intros Hflag Hmissing.
    destruct (logger_tools.p_telegram_token p) as [t|] eqn:Htok.
    + destruct Hmissing as [Hm|Hm]; [discriminate Hm | ].
      rewrite (rejects_missing_chat_ids sys p t Hflag Htok Hm). simpl. eauto.
    + rewrite (rejects_missing_token sys p Hflag Htok). simpl. eauto.
  - apply sink_iff_enabled.
  - apply telegram_sink_has_credentials.
Qed.

(** The flag set, destinations given, no token: rejected with nothing
    attached. *)
Lemma notification_validation_witness :
  exists text,
    fst (logger_tools.construct scenarios.permissive scenarios.app_no_token) =
      Raise (mkExc ValueError text)
    /\ logger_tools.handlers
         (logger_tools.self
            (snd (logger_tools.construct scenarios.permissive scenarios.app_no_token))) = []
    /\ logger_tools.calls
         (snd (logger_tools.construct scenarios.permissive scenarios.app_no_token)) = [].
Proof.
  apply (proj1 (notification_validation scenarios.permissive scenarios.app_no_token)).
  - reflexivity.
  - left. reflexivity.
Defined.

(** C3, counterexample.  The flag set with a token and an empty
    destination list: the constructor does not fail; it attaches the
    notification sink, with no destination. *)
Lemma empty_destination_list_accepted :
  logger_tools.p_enable_telegram scenarios.app_no_destinations = true
  /\ logger_tools.p_telegram_chat_ids scenarios.app_no_destinations = Some []
  /\ fst (logger_tools.construct scenarios.permissive scenarios.app_no_destinations) = Return tt
  /\ filter (fun h => logger_tools.is_telegram h)
       (logger_tools.handlers
          (logger_tools.self
             (snd (logger_tools.construct scenarios.permissive scenarios.app_no_destinations)))) =
     [logger_tools.TelegramSink (logger_tools.TelegramHandler_init "123:abc" [] true)].
Proof. repeat split. Qed.

(** [NiceLogger("app", log_folder="out")] in a directory that holds
    [logs]: the folder [out] is made and the file is opened under [logs].
    In an empty directory the same call makes [out] and then fails on the
    missing [logs]. *)
Example app_in_out_runs :
  fst (logger_tools.construct (scenarios.disk ["logs"]) scenarios.app_in_out) = Return tt
  /\ logger_tools.calls
       (snd (logger_tools.construct (scenarios.disk ["logs"]) scenarios.app_in_out)) =
     [logger_tools.PathExists "out"; logger_tools.Mkdir "out";
      logger_tools.OpenLog "logs/app-logs"]
  /\ map logger_tools.filename_of
       (logger_tools.handlers
          (logger_tools.self
             (snd (logger_tools.construct (scenarios.disk ["logs"]) scenarios.app_in_out)))) =
     [None; Some "logs/app-logs"]
  /\ fst (logger_tools.construct (scenarios.disk []) scenarios.app_in_out) =
     Raise (mkExc FileNotFoundError "[Errno 2] No such file or directory")
  /\ logger_tools.calls
       (snd (logger_tools.construct (scenarios.disk []) scenarios.app_in_out)) =
     [logger_tools.PathExists "out"; logger_tools.Mkdir "out";
      logger_tools.OpenLog "logs/app-logs"].
Proof. repeat split. Qed.

(** C5.  With the file sink enabled the constructor looks up the folder
    [log_folder] and makes it when absent, but the rotating file handler it
    attaches has the base file name [logs/<name>-logs] for every
    [log_folder]: the configured folder is not used for the file. *)
Theorem log_folder_not_used_for_file :
  forall (sys : logger_tools.Sys) (p : logger_tools.Params),
    let final := snd (logger_tools.construct sys p) in
    (forall h,
       In h (logger_tools.handlers (logger_tools.self final)) ->
       logger_tools.is_file h = true ->
       logger_tools.filename_of h = Some ("logs/" +:+ logger_tools.p_name p +:+ "-logs"))
    /\ (logger_tools.p_enable_file p = true ->
        logger_tools.p_enable_telegram p = false
          \/ (logger_tools.p_telegram_token p <> None
              /\ logger_tools.p_telegram_chat_ids p <> None) ->
        logger_tools.os_path_exists sys [] (logger_tools.p_log_folder p) = false ->
        exists rest,
          logger_tools.calls final =
          logger_tools.PathExists (logger_tools.p_log_folder p)
            :: logger_tools.Mkdir (logger_tools.p_log_folder p) :: rest).
Proof.
  intros sys p final. subst final.
  destruct p as [nm fm ef et tok ids async col wh bc enc lf]. split.
  - intros h.
    destruct et, tok as [t|], ids as [l|], ef; crank sys; simpl;
      intros Hin Hfile; repeat (destruct Hin as [Hin|Hin]; try subst h);
      try contradiction; try discriminate Hfile; reflexivity.
  - simpl. intros -> Hcfg Hex.
    destruct et, tok as [t|], ids as [l|];
      try (destruct Hcfg as [Hcfg|[H1 H2]]; congruence);
      run_init; rewrite Hex; crank sys; simpl; eauto.
Qed.

(** [NiceLogger("app", log_folder="out")]: the file is [logs/app-logs]. *)
Lemma log_folder_not_used_for_file_witness :
  logger_tools.filename_of
    (logger_tools.TimedRotatingFileHandler "logs/app-logs" "midnight" 2 "utf-8"
       logger_tools.DEBUG
       (logger_tools.ColoredFormatter_init "app" logger_tools._FORMAT false)) =
  Some "logs/app-logs"
  /\ logger_tools.p_log_folder scenarios.app_in_out = "out".
Proof.
  split; [ | reflexivity].
  apply (proj1 (log_folder_not_used_for_file (scenarios.disk ["logs"]) scenarios.app_in_out)).
  - right. left. reflexivity.
  - reflexivity.
Defined.

(* ===================================================================== *)
(** * Percent-style rendering of the package's templates *)
(* ===================================================================== *)

Section PercentFacts.

Import logger_tools.

Lemma length_append (a b : string) :
  String.length (a +:+ b) = (String.length a + String.length b)%nat.
Proof.
  induction a as [|c a IH]; [reflexivity | ].
  rewrite append_cons. change (S (String.length (a +:+ b)) = S (String.length a + String.length b)).
  now rewrite IH.
Qed.

Lemma len_append (a b : string) : len (a +:+ b) = len a + len b.
Proof. unfold len. rewrite length_append. lia. Qed.

Lemma prepend_prepend (a b : string) (o : Outcome string) :
  prepend a (prepend b o) = prepend (a +:+ b) o.
Proof. destruct o as [s|e]; simpl; [now rewrite append_assoc | reflexivity]. Qed.

Lemma prepend_return (a : string) (o : Outcome string) (s : string) :
  prepend a o = Return s -> exists t, o = Return t /\ s = a +:+ t.
Proof. destruct o as [t|e]; simpl; intros H; [injection H as <-; eauto | discriminate]. Qed.

Lemma contains_char_append (c : ascii) (a b : string) :
  contains_char c (a +:+ b) = contains_char c a || contains_char c b.
Proof.
  induction a as [|x a IH]; [reflexivity | ].
  rewrite append_cons. simpl. destruct (Ascii.eqb x c); [reflexivity | exact IH].
Qed.

(** Text without a percent sign is copied as it stands. *)
Lemma percent_text (a rest : string) (d : kwargs_t) :
  contains_char "%" a = false ->
  percent_format InText (a +:+ rest) d = prepend a (percent_format InText rest d).
Proof.
  induction a as [|c a IH]; intros Ha.
  - rewrite append_empty_l. destruct (percent_format InText rest d); reflexivity.
  - simpl in Ha. destruct (Ascii.eqb c "%") eqn:Hc; [discriminate | ].
    rewrite append_cons. simpl percent_format. rewrite Hc.
    rewrite (IH Ha), prepend_prepend. reflexivity.
Qed.

(** A template that renders still renders when followed by plain text,
    and the text follows the rendering. *)
Lemma percent_suffix (b : string) (d : kwargs_t) :
  contains_char "%" b = false ->
  forall (tpl : string) (st : Scan) (s : string),
    percent_format st tpl d = Return s ->
    percent_format st (tpl +:+ b) d = Return (s +:+ b).
Proof.
  intros Hb. induction tpl as [|c tpl IH]; intros st s Hs.
  - destruct st; simpl in Hs; try discriminate. injection Hs as <-.
    rewrite append_empty_l.
    rewrite <- (append_empty_r b) at 1. rewrite (percent_text b EmptyString d Hb).
    simpl. now rewrite append_empty_r.
  - rewrite append_cons. simpl percent_format in *.
    destruct st.
    + destruct (Ascii.eqb c "%"); [now apply IH | ].
      apply prepend_return in Hs as (t & Ht & ->).
      rewrite (IH _ _ Ht). simpl. now rewrite append_assoc.
    + destruct (Ascii.eqb c "%").
      * apply prepend_return in Hs as (t & Ht & ->).
        rewrite (IH _ _ Ht). simpl. now rewrite append_assoc.
      * destruct (Ascii.eqb c "("); [now apply IH | discriminate].
    + destruct (Ascii.eqb c ")"); now apply IH.
    + destruct (kw_get key d) as [v|]; [ | discriminate].
      destruct (Ascii.eqb c "s").
      * apply prepend_return in Hs as (t & Ht & ->).
        rewrite (IH _ _ Ht). simpl. now rewrite append_assoc.
      * destruct (Ascii.eqb c "d"); [ | discriminate].
        destruct v; try discriminate;
          apply prepend_return in Hs as (t & Ht & ->);
          rewrite (IH _ _ Ht); simpl; now rewrite append_assoc.
Qed.

(** The default layout, rendered. *)
Lemma default_layout_renders (r : LogRecord) :
  percent_format InText _FORMAT (record_dict r) =
  Return (asctime r +:+ " - (" +:+ repr_int (lineno r) +:+ "):[" +:+ levelname r
          +:+ "] --> " +:+ message r).
Proof.
  transitivity (Return (asctime r +:+ " - (" +:+ repr_int (lineno r) +:+ "):["
                        +:+ levelname r +:+ "] --> " +:+ message r +:+ EmptyString)
                : Outcome string).
  - reflexivity.
  - now rewrite append_empty_r.
Qed.

End PercentFacts.

(* ===================================================================== *)
(** * logger_tools: what the formatters print *)
(* ===================================================================== *)

Section LineFacts.

Import logger_tools.

Lemma colors_without_percent :
  Forall (fun c => contains_char "%" c = false) [blue; grey; yellow; red; bold_red; reset].
Proof. repeat constructor. Qed.

(** A record without traceback is rendered by the template alone. *)
Lemma format_without_traceback (tpl : option string) (r : LogRecord) :
  exc_text r = None ->
  Formatter_format tpl r =
  percent_format InText (match tpl with Some f => f | None => default_format end)
    (record_dict r).
Proof.
  intros Hx. unfold Formatter_format. rewrite Hx.
  now destruct (percent_format _ _ _).
Qed.

(** Wrapping a template in a colour and the reset wraps its rendering. *)
Lemma wrapped_rendering (color tpl s : string) (d : kwargs_t) :
  contains_char "%" color = false ->
  percent_format InText tpl d = Return s ->
  percent_format InText (color +:+ tpl +:+ reset) d = Return (color +:+ s +:+ reset).
Proof.
  intros Hc Hs. rewrite (percent_text color _ d Hc).
  now rewrite (percent_suffix reset d eq_refl tpl InText s Hs).
Qed.

End LineFacts.

(** X1.  For a record at one of the five levels and without traceback:
    when the uncoloured formatter renders it as a line, the coloured
    formatter renders it as one colour code, that same line and the reset
    code. *)
Theorem colored_line_wraps_plain_line :
  forall (name fmt : string) (r : logger_tools.LogRecord) (line : string),
    logger_tools.exc_text r = None ->
    In (logger_tools.levelno r) logger_tools.standard_levels ->
    logger_tools.ColoredFormatter_format
      (logger_tools.ColoredFormatter_init name fmt false) r = Return line ->
    exists color,
      logger_tools.is_sgr color = true
      /\ logger_tools.ColoredFormatter_format
           (logger_tools.ColoredFormatter_init name fmt true) r =
         Return (color +:+ line +:+ logger_tools.reset).
Proof.
  intros name fmt r line Hx Hl Hplain.
  unfold logger_tools.ColoredFormatter_format in *.
  rewrite (plain_table name fmt _ Hl) in Hplain.
  rewrite format_without_traceback in Hplain by exact Hx. simpl in Hplain.
  destruct (colored_table name fmt) as (Hd & Hi & Hw & He & Hc).
  cbv zeta in Hd, Hi, Hw, He, Hc.
  simpl in Hl.
  destruct Hl as [Hl|[Hl|[Hl|[Hl|[Hl|[]]]]]]; rewrite <- Hl;
    [ exists logger_tools.blue; rewrite Hd
    | exists logger_tools.grey; rewrite Hi
    | exists logger_tools.yellow; rewrite Hw
    | exists logger_tools.red; rewrite He
    | exists logger_tools.bold_red; rewrite Hc ];
    (split; [reflexivity | ]);
    rewrite format_without_traceback by exact Hx;
    (apply wrapped_rendering; [reflexivity | exact Hplain]).
Qed.

(** The console line of [NiceLogger("app")] for an INFO record. *)
Lemma colored_line_wraps_plain_line_witness :
  exists color,
    logger_tools.is_sgr color = true
    /\ logger_tools.ColoredFormatter_format
         (logger_tools.ColoredFormatter_init "app" logger_tools._FORMAT true)
         scenarios_rest.info_record =
       Return (color +:+ "[app] - 2024-01-01 00:00:00,000 - (12):[INFO] --> [info] - started"
               +:+ logger_tools.reset).
Proof.
  apply (colored_line_wraps_plain_line "app" logger_tools._FORMAT scenarios_rest.info_record).
  - reflexivity.
  - right. left. reflexivity.
  - reflexivity.
Defined.

(** X2.  With the default layout and a component name that holds no
    percent sign, a record at one of the five levels and without traceback
    is printed as: the name in brackets, the time, the line number in
    parentheses, the level name in brackets, an arrow and the message. *)
Theorem default_layout_line :
  forall (name : string) (r : logger_tools.LogRecord),
    contains_char "%" name = false ->
    logger_tools.exc_text r = None ->
    In (logger_tools.levelno r) logger_tools.standard_levels ->
    logger_tools.ColoredFormatter_format
      (logger_tools.ColoredFormatter_init name logger_tools._FORMAT false) r =
    Return ("[" +:+ name +:+ "] - " +:+ logger_tools.asctime r +:+ " - ("
            +:+ repr_int (logger_tools.lineno r) +:+ "):[" +:+ logger_tools.levelname r
            +:+ "] --> " +:+ logger_tools.message r).
Proof.
  intros name r Hn Hx Hl.
  unfold logger_tools.ColoredFormatter_format.
  rewrite (plain_table name logger_tools._FORMAT _ Hl).
  rewrite format_without_traceback by exact Hx.
  change ("[" +:+ name +:+ "] - " +:+ logger_tools._FORMAT)
    with (("[" +:+ name) +:+ "] - " +:+ logger_tools._FORMAT).
  rewrite percent_text.
  - rewrite (percent_text "] - " logger_tools._FORMAT _ eq_refl).
    rewrite default_layout_renders. simpl logger_tools.prepend.
    now rewrite !append_assoc.
  - rewrite contains_char_append. simpl. exact Hn.
Qed.

(** The file line of [NiceLogger("app")] for an INFO record. *)
Lemma default_layout_line_witness :
  logger_tools.ColoredFormatter_format
    (logger_tools.ColoredFormatter_init "app" logger_tools._FORMAT false)
    scenarios_rest.info_record =
  Return "[app] - 2024-01-01 00:00:00,000 - (12):[INFO] --> [info] - started".
Proof.
  apply (default_layout_line "app" scenarios_rest.info_record).
  - reflexivity.
  - reflexivity.
  - right. left. reflexivity.
Defined.

(** X3.  A component name made of text without a percent sign followed
    by one percent sign (such as [100%]) reaches the template unescaped,
    where the percent sign and the closing bracket read as a format
    directive: every record at one of the five levels then fails to format
    with [ValueError], with or without colours, whatever layout follows
    the name.  (A name ending in two percent signs does format: the pair
    stands for one literal sign.) *)
Theorem name_ending_in_percent_breaks_format :
  forall (stem fmt : string) (colored : bool) (r : logger_tools.LogRecord),
    contains_char "%" stem = false ->
    In (logger_tools.levelno r) logger_tools.standard_levels ->
    exists text,
      logger_tools.ColoredFormatter_format
        (logger_tools.ColoredFormatter_init (stem +:+ "%") fmt colored) r =
      Raise (mkExc ValueError text).
Proof.
  intros stem fmt colored r Hs Hl.
  exists "unsupported format character".
  assert (Hbody : forall tail d,
            logger_tools.percent_format logger_tools.InText
              (("[" +:+ (stem +:+ "%") +:+ "] - " +:+ fmt) +:+ tail) d =
            Raise (mkExc ValueError "unsupported format character")).
  { intros tail d.
    replace (("[" +:+ (stem +:+ "%") +:+ "] - " +:+ fmt) +:+ tail)
      with (("[" +:+ stem) +:+ "%] - " +:+ fmt +:+ tail)
      by (now rewrite !append_assoc).
    rewrite percent_text.
    - reflexivity.
    - rewrite contains_char_append. simpl. exact Hs. }
  unfold logger_tools.ColoredFormatter_format.
  destruct colored.
  - destruct (colored_table (stem +:+ "%") fmt) as (Hd & Hi & Hw & He & Hc).
    cbv zeta in Hd, Hi, Hw, He, Hc. simpl in Hl.
    destruct Hl as [Hl|[Hl|[Hl|[Hl|[Hl|[]]]]]]; rewrite <- Hl;
      [rewrite Hd | rewrite Hi | rewrite Hw | rewrite He | rewrite Hc];
      unfold logger_tools.Formatter_format;
      rewrite percent_text by reflexivity;
      rewrite Hbody; reflexivity.
  - rewrite (plain_table _ fmt _ Hl).
    unfold logger_tools.Formatter_format.
    rewrite <- (append_empty_r ("[" +:+ (stem +:+ "%") +:+ "] - " +:+ fmt)).
    now rewrite Hbody.
Qed.

(** [NiceLogger("100%")]: an ERROR record cannot be formatted. *)
Lemma name_ending_in_percent_breaks_format_witness :
  exists text,
    logger_tools.ColoredFormatter_format
      (logger_tools.ColoredFormatter_init ("100" +:+ "%") logger_tools._FORMAT true)
      scenarios_rest.error_record =
    Raise (mkExc ValueError text).
Proof.
  apply (name_ending_in_percent_breaks_format "100" logger_tools._FORMAT true
           scenarios_rest.error_record).
  - reflexivity.
  - right. right. right. left. reflexivity.
Defined.

(* ===================================================================== *)
(** * logger_tools: TelegramHandler.emit and BotLogger.log *)
(* ===================================================================== *)

Section EmitFacts.

Import logger_tools logger_tools_rest.

(** The handler's own template, rendered. *)
Lemma telegram_template_renders (r : LogRecord) :
  percent_format InText TelegramHandler_fmt (record_dict r) =
  Return ("[" +:+ levelname r +:+ "]" +:+ newline +:+ repr_int (lineno r) +:+ " - "
          +:+ funcName r +:+ ":" +:+ newline +:+ newline +:+ message r).
Proof.
  transitivity (Return ("[" +:+ levelname r +:+ "]" +:+ newline +:+ repr_int (lineno r)
                        +:+ " - " +:+ funcName r +:+ ":" +:+ newline +:+ newline
                        +:+ message r +:+ EmptyString) : Outcome string).
  - reflexivity.
  - now rewrite append_empty_r.
Qed.

(** Catching commutes with running on the caller's own path. *)
Lemma on_events_try_except (body : M World unit) (handler : PyExc -> M World unit)
  (spec : ExceptSpec) (h : Host) :
  try_except (on_events body) spec (fun e => on_events (handler e)) h =
  on_events (try_except body spec handler) h.
Proof.
  unfold try_except, on_events.
  destruct (body (events h)) as [[u|e] w']; simpl; [reflexivity | ].
  destruct (except_match spec e) as [[|]|te]; reflexivity.
Qed.

Variable env : Env.

End EmitFacts.



Section BotLoggerFacts.

Import logger_tools logger_tools_rest.

Variable env : Env.

(** The framing [log] adds around a message without context. *)
Lemma bot_log_text_length (name tag msg : string) :
  len ("[" +:+ name +:+ "]" +:+ newline +:+ newline
       +:+ _make_message msg (Some tag) [] []) =
  len name + len tag + len msg + 9.
Proof.
  change (_make_message msg (Some tag) [] []) with ("[" +:+ tag +:+ "] - " +:+ msg).
  rewrite !len_append. unfold newline. unfold len at 1 3 4 5 6 8. simpl String.length. lia.
Qed.

End BotLoggerFacts.

(* ===================================================================== *)
(** * logger_tools: the logger a successful constructor leaves *)
(* ===================================================================== *)

(** X8.  When the constructor succeeds, the logger it leaves is fixed by
    the parameters alone: level DEBUG, the console sink first (with the
    caller's colour choice), then the file sink if enabled (always without
    colours), then the notification sink if token and destination list
    were both given; the answers of the system decide only whether the
    constructor succeeds. *)
Theorem constructed_logger_is_fixed_by_parameters :
  forall (sys : logger_tools.Sys) (p : logger_tools.Params),
    fst (logger_tools.construct sys p) = Return tt ->
    let built := logger_tools.self (snd (logger_tools.construct sys p)) in
    let name := logger_tools.p_name p in
    logger_tools.name built = name
    /\ logger_tools.level built = logger_tools.DEBUG
    /\ logger_tools.handlers built =
       [logger_tools.StreamHandler logger_tools.DEBUG
          (logger_tools.ColoredFormatter_init name (logger_tools.p_fmt p)
             (logger_tools.p_colored p))]
       ++ (if logger_tools.p_enable_file p
           then [logger_tools.TimedRotatingFileHandler ("logs/" +:+ name +:+ "-logs")
                   (logger_tools.p_when p) (logger_tools.p_backup_count p)
                   (logger_tools.p_encoding p) logger_tools.DEBUG
                   (logger_tools.ColoredFormatter_init name (logger_tools.p_fmt p) false)]
           else [])
       ++ (match logger_tools.p_telegram_token p, logger_tools.p_telegram_chat_ids p with
           | Some t, Some l =>
               [logger_tools.TelegramSink
                  (logger_tools.TelegramHandler_init t l (logger_tools.p_tele_run_async p))]
           | _, _ => []
           end).
Proof.
  intros sys p.
  destruct p as [nm fm ef et tok ids async col wh bc enc lf].
  destruct et, tok as [t|], ids as [l|], ef; crank sys; simpl;
    intros Hok; try discriminate Hok; repeat split.
Qed.

(** [NiceLogger("app", log_folder="out")] in a directory that holds
    [logs]: console sink, then file sink. *)
Lemma constructed_logger_is_fixed_by_parameters_witness :
  logger_tools.level
    (logger_tools.self
       (snd (logger_tools.construct (scenarios.disk ["logs"]) scenarios.app_in_out))) =
  logger_tools.DEBUG.
Proof.
  exact (proj1 (proj2
    (constructed_logger_is_fixed_by_parameters (scenarios.disk ["logs"])
       scenarios.app_in_out eq_refl))).
Defined.

(** X9.  With the file sink disabled, the flag off and the token or the
    destination list left out, the constructor makes no call on the file
    system or the bot library, and what it does is the same whatever the
    system would have answered. *)
Theorem console_only_logger_needs_nothing :
  forall (sys sys' : logger_tools.Sys) (p : logger_tools.Params),
    logger_tools.p_enable_file p = false ->
    logger_tools.p_enable_telegram p = false ->
    logger_tools.p_telegram_token p = None \/ logger_tools.p_telegram_chat_ids p = None ->
    logger_tools.calls (snd (logger_tools.construct sys p)) = []
    /\ logger_tools.construct sys p = logger_tools.construct sys' p.
Proof.
  intros sys sys' p.
  destruct p as [nm fm ef et tok ids async col wh bc enc lf]; simpl.
  intros -> -> Hmissing.
  destruct tok as [t|], ids as [l|];
    try (destruct Hmissing as [H|H]; discriminate H); split; reflexivity.
Qed.

(** [NiceLogger("app", enable_file=False)] on a system where every call
    would fail, and on one where every call would succeed. *)
Lemma console_only_logger_needs_nothing_witness :
  logger_tools.calls
    (snd (logger_tools.construct scenarios_rest.hostile scenarios_rest.app_console_only)) = []
  /\ logger_tools.construct scenarios_rest.hostile scenarios_rest.app_console_only =
     logger_tools.construct scenarios.permissive scenarios_rest.app_console_only.
Proof.
  apply (console_only_logger_needs_nothing scenarios_rest.hostile scenarios.permissive
           scenarios_rest.app_console_only).
  - reflexivity.
  - reflexivity.
  - left. reflexivity.
Defined.

(** X10.  The bot is built last: a call to the bot library for a bot,
    when the constructor makes one, is its final call on the surroundings
    and uses the token given; with the file sink enabled the log file has
    been opened before it. *)
Theorem bot_is_created_last :
  forall (sys : logger_tools.Sys) (p : logger_tools.Params) (t : string),
    In (logger_tools.BotInit t) (logger_tools.calls (snd (logger_tools.construct sys p))) ->
    logger_tools.p_telegram_token p = Some t
    /\ exists before,
         logger_tools.calls (snd (logger_tools.construct sys p)) =
         before ++ [logger_tools.BotInit t]
         /\ (logger_tools.p_enable_file p = true ->
             In (logger_tools.OpenLog ("logs/" +:+ logger_tools.p_name p +:+ "-logs")) before).
Proof.
  intros sys p t.
  destruct p as [nm fm ef et tok ids async col wh bc enc lf].
  destruct et, tok as [t0|], ids as [l|], ef; crank sys; simpl;
    intros Hin; repeat (destruct Hin as [Hin|Hin]; try discriminate Hin);
    try contradiction; injection Hin as <-; (split; [reflexivity | ]).
  all: try (exists [logger_tools.PathExists lf; logger_tools.OpenLog ("logs/" +:+ nm +:+ "-logs")];
            split; [reflexivity | intros _; right; left; reflexivity]).
  all: try (exists [logger_tools.PathExists lf; logger_tools.Mkdir lf;
                    logger_tools.OpenLog ("logs/" +:+ nm +:+ "-logs")];
            split; [reflexivity | intros _; right; right; left; reflexivity]).
  all: exists []; split; [reflexivity | intros Hf; discriminate Hf].
Qed.

(** [NiceLogger("app", telegram_token="123:abc", telegram_chat_ids=[7])]
    in a directory that holds [logs]: the file is opened, then the bot is
    made. *)
Lemma bot_is_created_last_witness :
  logger_tools.p_telegram_token scenarios_rest.app_with_bot = Some "123:abc"
  /\ exists before,
       logger_tools.calls
         (snd (logger_tools.construct (scenarios.disk ["logs"]) scenarios_rest.app_with_bot)) =
       before ++ [logger_tools.BotInit "123:abc"]
       /\ (logger_tools.p_enable_file scenarios_rest.app_with_bot = true ->
           In (logger_tools.OpenLog
                 ("logs/" +:+ logger_tools.p_name scenarios_rest.app_with_bot +:+ "-logs"))
              before).
Proof.
  apply (bot_is_created_last (scenarios.disk ["logs"]) scenarios_rest.app_with_bot "123:abc").
  right. right. left. reflexivity.
Defined.

(* ===================================================================== *)
(** * thread_tools: keyword arguments of the wrappers *)
(* ===================================================================== *)

Lemma kw_get_del_same (k : string) (d : kwargs_t) : kw_get k (kw_del k d) = None.
Proof.
  unfold kw_del, kwargs_t in *.
  induction d as [|[k' v] d IH]; [reflexivity | ].
  rewrite filter_cons. simpl.
  destruct (String.eqb k k') eqn:Hk; simpl.
  - exact IH.
  - rewrite Hk. exact IH.
Qed.

Lemma kw_get_del_other (k j : string) (d : kwargs_t) :
  j <> k -> kw_get j (kw_del k d) = kw_get j d.
Proof.
  intros Hjk. unfold kw_del, kwargs_t in *.
  induction d as [|[k' v] d IH]; [reflexivity | ].
  rewrite filter_cons. simpl.
  destruct (String.eqb k k') eqn:Hk; simpl.
  - apply String.eqb_eq in Hk. subst k'.
    destruct (String.eqb j k) eqn:Hj; [apply String.eqb_eq in Hj; contradiction | exact IH].
  - destruct (String.eqb j k'); [reflexivity | exact IH].
Qed.

(** X11.  A keyword argument named [func] cannot be passed through
    either wrapper: the call fails with [TypeError] before any thread is
    started or any task submitted. *)
Theorem wrappers_refuse_keyword_func :
  forall (func : Callable) (args : list PyVal) (kwargs : kwargs_t) (w : thread_tools.World),
    kw_has "func" kwargs = true ->
    (exists text,
       thread_tools.run_in_thread_decorator func args kwargs w =
       (Raise (mkExc TypeError text), w))
    /\ (exists text,
       thread_tools.run_in_threadpool_decorator func args kwargs w =
       (Raise (mkExc TypeError text), w)).
Proof.
  intros func args kwargs w Hk. split.
  - unfold thread_tools.run_in_thread_decorator, thread_tools.call_run_in_thread, bind.
    rewrite Hk. simpl. eauto.
  - unfold thread_tools.run_in_threadpool_decorator, thread_tools.call_run_in_threadpool, bind.
    rewrite Hk. simpl. eauto.
Qed.

(** The wrapped function called as [wrapped(func=3)]. *)
Lemma wrappers_refuse_keyword_func_witness :
  exists text,
    thread_tools.run_in_thread_decorator scenarios.arity [] [("func", PyInt 3)] [] =
    (Raise (mkExc TypeError text), []).
Proof.
  apply (proj1 (wrappers_refuse_keyword_func scenarios.arity [] [("func", PyInt 3)] []
                  eq_refl)).
Defined.

(** X12.  A keyword argument [return_result] given to the pool wrapper
    never reaches the wrapped function.  Without positional arguments it
    is taken as the wrapper's own switch: the function is submitted with
    the other keywords only, every other keyword unchanged, and the wrapper
    waits for it exactly when the value is true.  With a positional
    argument the call fails with [TypeError] and nothing is submitted. *)
Theorem pool_wrapper_keeps_return_result_keyword :
  forall (func : Callable) (kwargs : kwargs_t) (v : PyVal) (w : thread_tools.World),
    kw_has "func" kwargs = false ->
    kw_get "return_result" kwargs = Some v ->
    snd (thread_tools.run_in_threadpool_decorator func [] kwargs w) =
      w ++ thread_tools.PoolSubmit func [] (kw_del "return_result" kwargs)
           :: (if truthy v then [thread_tools.FutureResult] else [])
    /\ kw_get "return_result" (kw_del "return_result" kwargs) = None
    /\ (forall k, k <> "return_result" ->
          kw_get k (kw_del "return_result" kwargs) = kw_get k kwargs)
    /\ (forall first rest,
          exists text,
            thread_tools.run_in_threadpool_decorator func (first :: rest) kwargs w =
            (Raise (mkExc TypeError text), w)).
Proof.
  intros func kwargs v w Hf Hr. repeat split.
  - unfold thread_tools.run_in_threadpool_decorator, thread_tools.call_run_in_threadpool.
    rewrite Hf, Hr. unfold thread_tools.run_in_threadpool, bind, thread_tools.submit,
      thread_tools.result, ret.
    destruct (truthy v); simpl.
    + destruct (func [] (kw_del "return_result" kwargs)); simpl; now rewrite <- app_assoc.
    + reflexivity.
  - apply kw_get_del_same.
  - intros k Hk. now apply kw_get_del_other.
  - intros first rest.
    unfold thread_tools.run_in_threadpool_decorator, thread_tools.call_run_in_threadpool, bind.
    rewrite Hf. unfold kw_has. rewrite Hr. simpl. eauto.
Qed.

(** The wrapped function called as [wrapped(return_result=True, n=1)]. *)
Lemma pool_wrapper_keeps_return_result_keyword_witness :
  snd (thread_tools.run_in_threadpool_decorator scenarios.arity []
         [("return_result", PyBool true); ("n", PyInt 1)] []) =
  [thread_tools.PoolSubmit scenarios.arity [] [("n", PyInt 1)]; thread_tools.FutureResult].
Proof.
  exact (proj1 (pool_wrapper_keeps_return_result_keyword scenarios.arity
                  [("return_result", PyBool true); ("n", PyInt 1)] (PyBool true) []
                  eq_refl eq_refl)).
Defined.

(* ===================================================================== *)
(** * func_tools: a tuple of classes, and the timeout wrapper *)
(* ===================================================================== *)

(** X13.  With a tuple of classes the wrapper of
    [catch_exception_decorator] does what its parameters say: a result is
    handed back untouched; an exception of a listed class (or a subclass)
    goes to the callback, once, and the default is returned, unless the
    callback itself raises, which then reaches the caller; any other
    exception reaches the caller and the callback is not called. *)
Theorem catch_exception_with_tuple :
  forall (func : Callable) (callback : PyExc -> Outcome PyVal) (classes : list ExcClass)
         (default : PyVal) (args : list PyVal) (kwargs : kwargs_t) (w : func_tools.World),
    func_tools.catch_exception_decorator func callback (Some (ExcTuple classes)) default
      args kwargs w =
    match func args kwargs with
    | Return v => (Return v, w)
    | Raise e =>
        if existsb (isinstance e) classes
        then (match callback e with
              | Return _ => Return default
              | Raise e' => Raise e'
              end, w ++ [e])
        else (Raise e, w)
    end.
Proof.
  intros func callback classes default args kwargs w.
  unfold func_tools.catch_exception_decorator, try_except, func_tools.call_func, except_match.
  destruct (func args kwargs) as [v|e]; [reflexivity | ].
  destruct (existsb (isinstance e) classes); [ | reflexivity].
  unfold bind, func_tools.call_callback.
  now destruct (callback e).
Qed.

Section TimeoutFacts.

Import func_tools_rest.

Lemma last_alarm_app (w : World) (n : Z) : last_alarm (w ++ [Alarm n]) = n.
Proof. unfold last_alarm. now rewrite fold_left_app. Qed.

Lemma signal_alarm_in_range (seconds : Z) (w : World) :
  INT_MIN <= seconds <= INT_MAX ->
  signal_alarm seconds w = (Return tt, w ++ [Alarm seconds]).
Proof.
  intros [Hlo Hhi]. unfold signal_alarm.
  replace (seconds <? INT_MIN)%Z with false by (symmetry; apply Z.ltb_ge; exact Hlo).
  replace (INT_MAX <? seconds)%Z with false by (symmetry; apply Z.ltb_ge; exact Hhi).
  reflexivity.
Qed.

Lemma signal_alarm_out_of_range (seconds : Z) (w : World) :
  seconds < INT_MIN \/ INT_MAX < seconds ->
  signal_alarm seconds w = (Raise OverflowError, w).
Proof.
  intros Hout. unfold signal_alarm.
  destruct (seconds <? INT_MIN)%Z eqn:Hlo; [reflexivity | ].
  destruct (INT_MAX <? seconds)%Z eqn:Hhi; [reflexivity | ].
  apply Z.ltb_ge in Hlo, Hhi. lia.
Qed.

End TimeoutFacts.

(** X14.  In the main thread, with a number of seconds that fits a C
    [int], the timeout wrapper installs its handler, requests the alarm,
    runs the function and then requests alarm 0, whether the function
    returned or raised; its outcome is the function's own.  So after such
    a call no alarm is left requested, including one that an enclosing
    wrapped call had requested before.  With a number of seconds outside
    that range the request for the alarm raises [OverflowError] after the
    handler has been installed: the function is not run, and neither the
    alarm nor alarm 0 is requested. *)
Theorem timeout_wrapper_always_cancels :
  forall (seconds : Z) (error_message : option string) (func : func_tools_rest.Body)
         (args : list PyVal) (kwargs : kwargs_t) (w : func_tools_rest.World),
    let entered :=
      w ++ [func_tools_rest.SetHandler error_message; func_tools_rest.Alarm seconds] in
    let r := func_tools_rest.timeout_decorator seconds error_message func true args kwargs w in
    (func_tools_rest.INT_MIN <= seconds <= func_tools_rest.INT_MAX ->
     fst r = fst (func args kwargs entered)
     /\ snd r = snd (func args kwargs entered) ++ [func_tools_rest.Alarm 0]
     /\ func_tools_rest.last_alarm (snd r) = 0)
    /\ (seconds < func_tools_rest.INT_MIN \/ func_tools_rest.INT_MAX < seconds ->
        r = (Raise func_tools_rest.OverflowError,
             w ++ [func_tools_rest.SetHandler error_message])).
Proof.
  intros seconds error_message func args kwargs w entered r. split.
  - intros Hrange.
    assert (Hr : r = (fst (func args kwargs entered),
                      snd (func args kwargs entered) ++ [func_tools_rest.Alarm 0])).
    { subst r. unfold func_tools_rest.timeout_decorator, bind,
        func_tools_rest.signal_signal, func_tools_rest.try_finally, ret.
      rewrite (signal_alarm_in_range seconds _ Hrange).
      replace ((w ++ [func_tools_rest.SetHandler error_message])
               ++ [func_tools_rest.Alarm seconds]) with entered
        by (subst entered; now rewrite <- app_assoc).
      destruct (func args kwargs entered) as [[v|e] w'];
        rewrite (signal_alarm_in_range 0 w') by (vm_compute; split; discriminate);
        reflexivity. }
    rewrite Hr. simpl. repeat split. apply last_alarm_app.
  - intros Hout. subst r.
    unfold func_tools_rest.timeout_decorator, bind, func_tools_rest.signal_signal.
    now rewrite (signal_alarm_out_of_range seconds _ Hout).
Qed.

(** A wrapped function that returns 7, with ten seconds allowed: no alarm
    is left requested. *)
Lemma timeout_wrapper_always_cancels_witness :
  func_tools_rest.last_alarm
    (snd (func_tools_rest.timeout_decorator 10 (Some "Timed Out!")
            (fun _ _ => ret (PyInt 7)) true [] [] [])) = 0.
Proof.
  refine (proj2 (proj2 (proj1
    (timeout_wrapper_always_cancels 10 (Some "Timed Out!")
       (fun _ _ => ret (PyInt 7)) [] [] []) _))).
  unfold func_tools_rest.INT_MIN, func_tools_rest.INT_MAX. lia.
Defined.

(** A timeout of [2 ** 31] seconds: the wrapped function is never run. *)
Example timeout_wrapper_overflow :
  func_tools_rest.timeout_decorator (2 ^ 31) (Some "Timed Out!")
    (fun _ _ => ret (PyInt 7)) true [] [] [] =
  (Raise func_tools_rest.OverflowError, [func_tools_rest.SetHandler (Some "Timed Out!")]).
Proof. reflexivity. Qed.

(** Off the main thread the timeout wrapper fails with
    [ValueError] when it tries to install its handler: the function is not
    run and no alarm is requested. *)
Lemma timeout_wrapper_needs_main_thread :
  forall (seconds : Z) (error_message : option string) (func : func_tools_rest.Body)
         (args : list PyVal) (kwargs : kwargs_t) (w : func_tools_rest.World),
    exists text,
      func_tools_rest.timeout_decorator seconds error_message func false args kwargs w =
      (Raise (mkExc ValueError text), w).
Proof. intros. eexists. reflexivity. Qed.

(* ===================================================================== *)
(** * http_base_client *)
(* ===================================================================== *)

Section HttpFacts.

Import http_base_client.

(** Looking a key up after filtering an association list whose keys are
    distinct. *)
Lemma kw_get_filter (f : string * PyVal -> bool) (k : string) (l : kwargs_t) :
  NoDup (map fst l) ->
  kw_get k (List.filter f l) =
  match kw_get k l with
  | Some v => if f (k, v) then Some v else None
  | None => None
  end.
Proof.
  induction l as [|[k' v'] l IH]; intros Hnd; [reflexivity | ].
  simpl in Hnd. apply NoDup_cons in Hnd as [Hk' Hnd].
  simpl. destruct (String.eqb k k') eqn:Hk.
  - apply String.eqb_eq in Hk. subst k'.
    destruct (f (k, v')) eqn:Hf; simpl.
    + now rewrite String.eqb_refl.
    + rewrite (IH Hnd).
      destruct (kw_get k l) as [v|] eqn:Hg; [exfalso | reflexivity].
      apply Hk'. clear -Hg.
      induction l as [|[j u] l IHl]; [discriminate | ].
      simpl in *. destruct (String.eqb k j) eqn:Hj.
      * apply String.eqb_eq in Hj. subst j. now left.
      * right. now apply IHl.
  - destruct (f (k', v')); simpl; [rewrite Hk | ]; exact (IH Hnd).
Qed.

Lemma filter_filter_same {A} (f : A -> bool) (l : list A) :
  List.filter f (List.filter f l) = List.filter f l.
Proof.
  induction l as [|x l IH]; [reflexivity | ].
  simpl. destruct (f x) eqn:Hf; simpl; [rewrite Hf; now f_equal | exact IH].
Qed.

(** Among three-digit status codes, those whose decimal text starts with
    the digit 2 are the codes from 200 to 299. *)
Lemma three_digit_status (st : Z) :
  100 <= st <= 999 ->
  String.prefix "2" (repr_int st) = ((200 <=? st)%Z && (st <? 300)%Z).
Proof.
  intros Hst.
  assert (Hall : forallb (fun n => Bool.eqb
                    (String.prefix "2" (repr_int (100 + Z.of_nat n)))
                    ((200 <=? 100 + Z.of_nat n)%Z && (100 + Z.of_nat n <? 300)%Z))
                   (seq 0 900) = true) by (vm_compute; reflexivity).
  rewrite forallb_forall in Hall.
  specialize (Hall (Z.to_nat (st - 100))).
  replace (100 + Z.of_nat (Z.to_nat (st - 100))) with st in Hall by lia.
  apply Bool.eqb_prop. apply Hall. apply in_seq. lia.
Qed.

End HttpFacts.

(** X15.  [_get_kwargs] on a dictionary: a key survives exactly when it
    is not [self], not [cls], not among [del_keys] and, with [del_nones]
    set, its value is not [None]; a surviving key keeps its value; and
    filtering the result again changes nothing. *)
Theorem get_kwargs_keeps_the_rest :
  forall (locals_ : kwargs_t) (del_keys : option (list string)) (del_nones : bool)
         (k : string),
    NoDup (map fst locals_) ->
    let excluded :=
      ["self"; "cls"] ++ match del_keys with Some more => more | None => [] end in
    kw_get k (http_base_client._get_kwargs locals_ del_keys del_nones) =
      (if existsb (String.eqb k) excluded then None
       else match kw_get k locals_ with
            | Some v => if del_nones && http_base_client.is_None v then None else Some v
            | None => None
            end)
    /\ http_base_client._get_kwargs
         (http_base_client._get_kwargs locals_ del_keys del_nones) del_keys del_nones =
       http_base_client._get_kwargs locals_ del_keys del_nones.
Proof.
  intros locals_ del_keys del_nones k Hnd excluded. split.
  - unfold http_base_client._get_kwargs.
    assert (Hex : (match del_keys with
                   | Some more => ["self"; "cls"] ++ more
                   | None => ["self"; "cls"]
                   end) = excluded) by (subst excluded; now destruct del_keys).
    rewrite Hex.
    destruct del_nones; rewrite kw_get_filter by exact Hnd; simpl fst; simpl snd;
      destruct (existsb (String.eqb k) excluded); simpl;
      destruct (kw_get k locals_) as [v|]; try reflexivity.
    now destruct (http_base_client.is_None v).
  - unfold http_base_client._get_kwargs.
    destruct del_nones; apply filter_filter_same.
Qed.

(** The locals of a method call: [self], a symbol, and a limit left at
    [None]. *)
Lemma get_kwargs_keeps_the_rest_witness :
  kw_get "symbol" (http_base_client._get_kwargs scenarios_rest.method_locals None true) =
  Some (PyStr "BTCUSDT").
Proof.
  refine (eq_trans (proj1 (get_kwargs_keeps_the_rest scenarios_rest.method_locals None true
                             "symbol" _)) _).
  - apply (bool_decide_unpack _). vm_compute. exact I.
  - reflexivity.
Defined.

(** X16.  On every three-digit status code the two clients take the
    same branch: from 200 to 299 both go on to read the JSON body, and on
    any other both raise through [APIException]. *)
Theorem clients_agree_on_three_digit_status :
  forall (json_loads : string -> option http_base_client.Json)
         (r : http_base_client.SyncResponse) (a : http_base_client.AsyncResponse),
    http_base_client.async_status a = http_base_client.sync_status_code r ->
    100 <= http_base_client.sync_status_code r <= 999 ->
    let st := http_base_client.sync_status_code r in
    (200 <= st < 300 ->
       http_base_client.SyncClient_handle_response json_loads r =
         http_base_client.json_or_request_error
           (http_base_client.sync_json r) (http_base_client.sync_text r)
       /\ http_base_client.AsyncClient_handle_response json_loads a =
         http_base_client.json_or_request_error
           (http_base_client.async_json a) (http_base_client.async_text a))
    /\ (st < 200 \/ 300 <= st ->
       http_base_client.SyncClient_handle_response json_loads r =
         http_base_client.raise_APIException json_loads
           (http_base_client.sync_text r) st (http_base_client.sync_text r)
       /\ http_base_client.AsyncClient_handle_response json_loads a =
         http_base_client.raise_APIException json_loads
           (http_base_client.async_text_method a) st (http_base_client.async_text a)).
Proof.
  intros json_loads r a Hsame Hst st.
  unfold http_base_client.SyncClient_handle_response,
    http_base_client.AsyncClient_handle_response.
  rewrite Hsame. fold st. rewrite (three_digit_status st Hst).
  split; intros Hrange.
  - replace ((200 <=? st)%Z && (st <? 300)%Z) with true; [split; reflexivity | ].
    symmetry. apply andb_true_intro. split; [apply Z.leb_le | apply Z.ltb_lt]; lia.
  - replace ((200 <=? st)%Z && (st <? 300)%Z) with false; [split; reflexivity | ].
    symmetry. apply andb_false_iff.
    destruct Hrange; [left; apply Z.leb_gt | right; apply Z.ltb_ge]; lia.
Qed.

(** A 404 answer seen by both clients. *)
Lemma clients_agree_on_three_digit_status_witness :
  http_base_client.SyncClient_handle_response scenarios_rest.parse_error_body
    scenarios_rest.sync_404 =
  http_base_client.raise_APIException scenarios_rest.parse_error_body
    scenarios_rest.error_body 404 scenarios_rest.error_body
  /\ http_base_client.AsyncClient_handle_response scenarios_rest.parse_error_body
       scenarios_rest.async_404 =
     http_base_client.raise_APIException scenarios_rest.parse_error_body
       "<bound method ClientResponse.text>" 404 scenarios_rest.error_body.
Proof.
  apply (proj2 (clients_agree_on_three_digit_status scenarios_rest.parse_error_body
                  scenarios_rest.sync_404 scenarios_rest.async_404 eq_refl
                  (conj (Zle_bool_imp_le 100 404 eq_refl) (Zle_bool_imp_le 404 999 eq_refl)))).
  right. apply (Zle_bool_imp_le 300 404 eq_refl).
Defined.

(** X17.  An [APIException] made from an error body.  A body that is not
    JSON gives an exception with code 0 whose text cannot be produced: it
    has no [result] attribute, which [__str__] reads.  A JSON object with
    the members code, message and result gives an exception that prints
    all three.  A JSON object lacking one of them makes the constructor
    itself fail with [KeyError], and any other JSON value with
    [TypeError], so the caller never sees the [APIException]. *)
Theorem api_exception_from_error_body :
  forall (json_loads : string -> option http_base_client.Json)
         (response_text : string) (status : Z) (text : string),
    let made := http_base_client.APIException_init json_loads response_text status text in
    (json_loads text = None ->
       exists e, made = Return e
                 /\ http_base_client.code e = PyInt 0
                 /\ http_base_client.APIException_str e =
                    http_base_client.NoAttribute "result")
    /\ (forall members c m r,
          json_loads text = Some (http_base_client.JObject members) ->
          kw_get "code" members = Some c ->
          kw_get "message" members = Some m ->
          kw_get "result" members = Some r ->
          exists e, made = Return e
                    /\ http_base_client.APIException_str e =
                       http_base_client.Text
                         ("APIError(code=" +:+ http_base_client.str_of c +:+ "): "
                          +:+ http_base_client.str_of m +:+ " | "
                          +:+ http_base_client.str_of r))
    /\ (forall members,
          json_loads text = Some (http_base_client.JObject members) ->
          kw_get "code" members = None
            \/ kw_get "message" members = None
            \/ kw_get "result" members = None ->
          exists key, made = Raise (mkExc KeyError key))
    /\ (forall value,
          json_loads text = Some (http_base_client.JOther value) ->
          exists reason, made = Raise (mkExc TypeError reason)).
Proof.
  intros json_loads response_text status text made. subst made.
  unfold http_base_client.APIException_init. repeat split.
  - intros ->. eexists. repeat split.
  - intros members c m r -> Hc Hm Hr. simpl. rewrite Hc, Hm, Hr.
    eexists. split; reflexivity.
  - intros members -> Hmissing. simpl.
    destruct (kw_get "code" members) as [c|]; [ | eauto].
    destruct (kw_get "message" members) as [m|]; [ | eauto].
    destruct (kw_get "result" members) as [r|]; [ | eauto].
    destruct Hmissing as [H|[H|H]]; discriminate H.
  - intros value ->. simpl. eauto.
Qed.

(** An error page that is not JSON: the exception is made, and printing
    it fails. *)
Lemma api_exception_from_error_body_witness :
  exists e,
    http_base_client.APIException_init scenarios_rest.parse_error_body
      "<html>Bad Gateway</html>" 502 "<html>Bad Gateway</html>" = Return e
    /\ http_base_client.code e = PyInt 0
    /\ http_base_client.APIException_str e = http_base_client.NoAttribute "result".
Proof.
  apply (proj1 (api_exception_from_error_body scenarios_rest.parse_error_body
                  "<html>Bad Gateway</html>" 502 "<html>Bad Gateway</html>")).
  reflexivity.
Defined.

(* ===================================================================== *)
(** * logger_tools: delivery when anything may be raised *)
(* ===================================================================== *)

Lemma for_each_ext {S A} (f g : A -> M S unit) (xs : list A) :
  (forall x s, f x s = g x s) -> forall s, for_each xs f s = for_each xs g s.
Proof.
  intros Hfg. induction xs as [|x xs IH]; intros s; [reflexivity | ].
  rewrite !for_each_cons, Hfg.
  destruct (g x s) as [[u|e] s']; [apply IH | reflexivity].
Qed.

Section WideFacts.

Import logger_tools_wide.

(** A loop of calls: all of them are made, or the loop stops at the first
    call that fails, with the exception that call ended in. *)
Lemma wide_loop_trace (answer : logger_tools.World -> Z -> option PyExc)
  (ev : Z -> logger_tools.Event) :
  forall (ids : list Z) (w : logger_tools.World),
    let loop := for_each ids (fun c w0 => raise_some (answer w0 c) (w0 ++ [ev c])) in
    loop w = (Return tt, w ++ map ev ids)
    \/ exists k c e, ids !! k = Some c
         /\ answer (w ++ map ev (take k ids)) c = Some e
         /\ loop w = (Raise e, w ++ map ev (take (S k) ids)).
Proof.
  induction ids as [|c ids IH]; intros w loop; subst loop.
  - left. simpl. unfold ret. now rewrite app_nil_r.
  - rewrite !for_each_cons.
    destruct (answer w c) as [e|] eqn:Ha.
    + right. exists 0%nat, c, e. split; [reflexivity | ].
      split; [simpl; now rewrite app_nil_r | reflexivity].
    + simpl raise_some. unfold ret.
      destruct (IH (w ++ [ev c])) as [Hok | (k & c0 & e & Hk & Hans & Hfail)].
      * left. rewrite Hok. now rewrite <- app_assoc.
      * right. exists (S k), c0, e. split; [exact Hk | ].
        split.
        -- rewrite <- Hans. simpl. now rewrite <- app_assoc.
        -- rewrite Hfail. simpl. now rewrite <- app_assoc.
Qed.

(** When no call fails, all of them are made. *)
Lemma wide_loop_all (answer : logger_tools.World -> Z -> option PyExc)
  (ev : Z -> logger_tools.Event) (ids : list Z) (w : logger_tools.World) :
  (forall w0 c, answer w0 c = None) ->
  for_each ids (fun c w0 => raise_some (answer w0 c) (w0 ++ [ev c])) w =
  (Return tt, w ++ map ev ids).
Proof.
  intros Hnone.
  destruct (wide_loop_trace answer ev ids w) as [Hok | (k & c & e & _ & Hans & _)].
  - exact Hok.
  - rewrite Hnone in Hans. discriminate.
Qed.

Variable env : Surroundings.

Lemma wide_message_loop (ids : list Z) (msg : string) (w : logger_tools.World) :
  for_each ids (fun chat_id => send_message env chat_id msg) w =
    (Return tt, w ++ logger_tools.message_calls ids msg)
  \/ exists k c e, ids !! k = Some c
       /\ bot_send_message env (w ++ logger_tools.message_calls (take k ids) msg) c msg = Some e
       /\ for_each ids (fun chat_id => send_message env chat_id msg) w =
          (Raise e, w ++ logger_tools.message_calls (take (S k) ids) msg).
Proof.
  exact (wide_loop_trace (fun w0 c => bot_send_message env w0 c msg)
           (fun c => logger_tools.SendMessage c msg) ids w).
Qed.

Lemma wide_document_loop (ids : list Z) (doc : string) (w : logger_tools.World) :
  for_each ids (fun chat_id => send_document env chat_id doc) w =
    (Return tt, w ++ logger_tools.document_calls ids doc)
  \/ exists k c e, ids !! k = Some c
       /\ bot_send_document env (w ++ logger_tools.document_calls (take k ids) doc) c doc = Some e
       /\ for_each ids (fun chat_id => send_document env chat_id doc) w =
          (Raise e, w ++ logger_tools.document_calls (take (S k) ids) doc).
Proof.
  exact (wide_loop_trace (fun w0 c => bot_send_document env w0 c doc)
           (fun c => logger_tools.SendDocument c doc) ids w).
Qed.

(** Document delivery to the destinations [ids], step by step: the file
    is written and every destination served; or the write fails; or the
    file is written and the bot fails at destination [k]. *)
Lemma wide_document_steps (ids : list Z) (msg : string) (w : logger_tools.World) :
  let path := "logs/" +:+ uuid4_head env w +:+ "-logs.txt" in
  let written := w ++ [logger_tools.WriteFile path msg] in
  let run :=
    (rand_name <- uuid4_first_group env ;;
     write_file env ("logs/" +:+ rand_name +:+ "-logs.txt") msg ;;;
     for_each ids (fun chat_id =>
       send_document env chat_id ("logs/" +:+ rand_name +:+ "-logs.txt")))%py in
  (open_write env w path msg = None
   /\ run w = (Return tt, written ++ logger_tools.document_calls ids path))
  \/ (exists e, open_write env w path msg = Some e /\ run w = (Raise e, written))
  \/ (exists k c e, ids !! k = Some c
        /\ open_write env w path msg = None
        /\ bot_send_document env
             (written ++ logger_tools.document_calls (take k ids) path) c path = Some e
        /\ run w = (Raise e, written ++ logger_tools.document_calls (take (S k) ids) path)).
Proof.
  intros path written run. subst run. unfold bind, uuid4_first_group, write_file.
  fold path. fold written.
  destruct (open_write env w path msg) as [e|] eqn:Hw.
  - right; left. exists e. split; reflexivity.
  - simpl raise_some. unfold ret.
    destruct (wide_document_loop ids path written)
      as [Hok | (k & c & e & Hk & Hans & Hfail)].
    + left. split; [reflexivity | exact Hok].
    + right; right. exists k, c, e. repeat split; assumption.
Qed.

(** What either delivery of a handler raises is the answer of a call. *)
Lemma wide_delivery_raises_an_answer (h : logger_tools.TelegramHandler) (msg : string)
  (w w' : logger_tools.World) (x : PyExc) :
  fails_with_exceptions_only env ->
  (if len msg >? logger_tools._MAX_LEN h
   then _send_as_document env h msg else _send_message env h msg) w = (Raise x, w') ->
  isinstance x Exception = true.
Proof.
  intros (Hfile & Hmsg & Hdoc).
  destruct (len msg >? logger_tools._MAX_LEN h).
  - intros Hx. unfold _send_as_document, _send_document in Hx.
    pose proof (wide_document_steps (logger_tools.chat_ids h) msg w) as Hsteps.
    cbv zeta in Hsteps.
    destruct Hsteps
      as [[_ Hok] | [(e & Hans & Hfail) | (k & c & e & Hk & _ & Hans & Hfail)]].
    + rewrite Hok in Hx. discriminate.
    + rewrite Hfail in Hx. injection Hx as <- _. exact (Hfile _ _ _ _ Hans).
    + rewrite Hfail in Hx. injection Hx as <- _. exact (Hdoc _ _ _ _ Hans).
  - unfold _send_message.
    destruct (wide_message_loop (logger_tools.chat_ids h) msg w)
      as [Hok | (k & c & e & Hk & Hans & Hfail)]; intros Hx.
    + rewrite Hok in Hx. discriminate.
    + rewrite Hfail in Hx. injection Hx as <- _. exact (Hmsg _ _ _ _ Hans).
Qed.

(** A raised instance of [Exception] is caught and printed. *)
Lemma wide_caught (body : M logger_tools.World unit) (w w' : logger_tools.World) (e : PyExc) :
  body w = (Raise e, w') ->
  isinstance e Exception = true ->
  try_except body (ExcOne Exception) (fun x => print env x) w = print env e w'.
Proof.
  intros Hb He. unfold try_except. rewrite Hb. simpl. now rewrite He.
Qed.

Lemma wide_not_raised (body : M logger_tools.World unit) (w w' : logger_tools.World) :
  body w = (Return tt, w') ->
  try_except body (ExcOne Exception) (fun x => print env x) w = (Return tt, w').
Proof.
  intros Hb. unfold try_except. now rewrite Hb.
Qed.

End WideFacts.

(** On surroundings whose failures are ordinary errors, whose print works
    and whose threads start, the two descriptions of [send] agree. *)
Lemma send_widen (env : logger_tools.Env) (h : logger_tools.TelegramHandler)
  (msg : string) (w : logger_tools.World) :
  logger_tools_wide.send (logger_tools_wide.widen env) h msg w = logger_tools.send env h msg w.
Proof.
  assert (Hraise : forall (o : option StdError) (s : logger_tools.World),
            logger_tools_wide.raise_some (option_map std_exc o) s = raise_if o s)
    by (intros [e|] s; reflexivity).
  assert (Hmsg : forall m s,
            logger_tools_wide._send_message (logger_tools_wide.widen env) h m s =
            logger_tools._send_message env h m s).
  { intros m s. apply for_each_ext. intros c s0. apply Hraise. }
  assert (Hdoc : forall d s,
            logger_tools_wide._send_document (logger_tools_wide.widen env) h d s =
            logger_tools._send_document env h d s).
  { intros d s. apply for_each_ext. intros c s0. apply Hraise. }
  assert (Hbody : (if len msg >? logger_tools._MAX_LEN h
                   then logger_tools_wide._send_as_document (logger_tools_wide.widen env) h msg
                   else logger_tools_wide._send_message (logger_tools_wide.widen env) h msg) w =
                  (if len msg >? logger_tools._MAX_LEN h
                   then logger_tools._send_as_document env h msg
                   else logger_tools._send_message env h msg) w).
  { destruct (len msg >? logger_tools._MAX_LEN h); [ | apply Hmsg].
    unfold logger_tools_wide._send_as_document, logger_tools._send_as_document, bind,
      logger_tools_wide.uuid4_first_group, logger_tools.uuid4_first_group,
      logger_tools_wide.write_file, logger_tools.write_file.
    simpl logger_tools_wide.uuid4_head. simpl logger_tools_wide.open_write.
    rewrite Hraise.
    destruct (raise_if _ _) as [[u|e] s']; [apply Hdoc | reflexivity]. }
  unfold logger_tools_wide.send, logger_tools.send, try_except.
  rewrite Hbody.
  destruct ((if len msg >? logger_tools._MAX_LEN h
             then logger_tools._send_as_document env h msg
             else logger_tools._send_message env h msg) w) as [[u|e] s']; [reflexivity | ].
  destruct (except_match (ExcOne Exception) e) as [[|]|te]; reflexivity.
Qed.

(** C2, as amended.  [send] ends as the delivery it chose ended, except
    that an exception that is an instance of [Exception] is caught: its
    text is printed and [send] returns normally, provided the printing
    succeeds.  An exception that is no instance of [Exception] passes
    through [send], and so does a failure of the printing.  Hence [send]
    never raises in surroundings whose failures are all instances of
    [Exception] and in which the diagnostic can be printed. *)
Theorem send_catches_instances_of_Exception :
  forall (env : logger_tools_wide.Surroundings) (h : logger_tools.TelegramHandler)
         (msg : string) (w : logger_tools.World),
    let delivery :=
      if len msg >? logger_tools._MAX_LEN h
      then logger_tools_wide._send_as_document env h msg
      else logger_tools_wide._send_message env h msg in
    (forall w', delivery w = (Return tt, w') ->
       logger_tools_wide.send env h msg w = (Return tt, w'))
    /\ (forall e w', delivery w = (Raise e, w') ->
          isinstance e Exception = true ->
          logger_tools_wide.print_fails env w' e = None ->
          logger_tools_wide.send env h msg w =
          (Return tt, w' ++ [logger_tools.Print (exc_str e)]))
    /\ (forall e w' x, delivery w = (Raise e, w') ->
          isinstance e Exception = true ->
          logger_tools_wide.print_fails env w' e = Some x ->
          logger_tools_wide.send env h msg w = (Raise x, w'))
    /\ (forall e w', delivery w = (Raise e, w') ->
          isinstance e Exception = false ->
          logger_tools_wide.send env h msg w = (Raise e, w'))
    /\ (logger_tools_wide.fails_with_exceptions_only env ->
        logger_tools_wide.print_succeeds env ->
        fst (logger_tools_wide.send env h msg w) = Return tt).
Proof.
  intros env h msg w delivery.
  assert (Hret : forall w', delivery w = (Return tt, w') ->
            logger_tools_wide.send env h msg w = (Return tt, w'))
    by (intros w' Hd; exact (wide_not_raised env delivery w w' Hd)).
  assert (Hcaught : forall e w', delivery w = (Raise e, w') ->
            isinstance e Exception = true ->
            logger_tools_wide.send env h msg w = logger_tools_wide.print env e w')
    by (intros e w' Hd He; exact (wide_caught env delivery w w' e Hd He)).
  split; [exact Hret | ]. split; [ | split; [ | split]].
  - intros e w' Hd He Hp. rewrite (Hcaught e w' Hd He).
    unfold logger_tools_wide.print. now rewrite Hp.
  - intros e w' x Hd He Hp. rewrite (Hcaught e w' Hd He).
    unfold logger_tools_wide.print. now rewrite Hp.
  - intros e w' Hd He. unfold logger_tools_wide.send, try_except. fold delivery.
    rewrite Hd. simpl. now rewrite He.
  - intros Hord Hprint.
    destruct (delivery w) as [[[]|e] w'] eqn:Hd.
    + now rewrite (Hret w' eq_refl).
    + assert (He : isinstance e Exception = true)
        by exact (wide_delivery_raises_an_answer env h msg w w' e Hord Hd).
      rewrite (Hcaught e w' eq_refl He).
      unfold logger_tools_wide.print. now rewrite (Hprint w' e).
Qed.

(** Chat 2 cannot be reached: the loop stops there, the error text is
    printed, and [send] returns. *)
Lemma send_catches_instances_of_Exception_witness :
  logger_tools_wide.send scenarios_wide.flaky
    (logger_tools.TelegramHandler_init "123:abc" [1; 2; 3] false) "hello" [] =
  (Return tt,
   [logger_tools.SendMessage 1 "hello"; logger_tools.SendMessage 2 "hello";
    logger_tools.Print "Timed out"]).
Proof.
  exact (proj1 (proj2
    (send_catches_instances_of_Exception scenarios_wide.flaky
       (logger_tools.TelegramHandler_init "123:abc" [1; 2; 3] false) "hello" []))
    (mkExc NetworkError "Timed out")
    [logger_tools.SendMessage 1 "hello"; logger_tools.SendMessage 2 "hello"]
    eq_refl eq_refl eq_refl).
Defined.

(** C2, counterexample.  The bot call for chat 2 ends in
    [KeyboardInterrupt]: [send] does not return, the interrupt leaves it,
    and nothing is printed.  And when chat 2 cannot be reached while
    standard output is closed, the failure of [print] leaves [send]. *)
Lemma send_can_raise :
  logger_tools_wide.send scenarios_wide.interrupted
    (logger_tools.TelegramHandler_init "123:abc" [1; 2; 3] false) "hello" [] =
  (Raise (mkExc KeyboardInterrupt EmptyString),
   [logger_tools.SendMessage 1 "hello"; logger_tools.SendMessage 2 "hello"])
  /\ logger_tools_wide.send scenarios_wide.stdout_closed
       (logger_tools.TelegramHandler_init "123:abc" [1; 2; 3] false) "hello" [] =
     (Raise (mkExc ValueError "I/O operation on closed file."),
      [logger_tools.SendMessage 1 "hello"; logger_tools.SendMessage 2 "hello"]).
Proof. split; reflexivity. Qed.

(** X18.  A handler without destinations: a text of at most 4096
    characters is dropped without a trace; for a longer one the file under
    [logs/] is still written, though nobody is sent it; and when writing
    that file fails with an instance of [Exception], the text of that very
    failure is printed (the printing succeeding) and [send] returns. *)
Theorem send_without_destinations :
  forall (env : logger_tools_wide.Surroundings) (token : string) (async : bool)
         (msg : string) (w : logger_tools.World),
    let h := logger_tools.TelegramHandler_init token [] async in
    let path := "logs/" +:+ logger_tools_wide.uuid4_head env w +:+ "-logs.txt" in
    (len msg <= 4096 -> logger_tools_wide.send env h msg w = (Return tt, w))
    /\ (len msg > 4096 ->
        logger_tools_wide.open_write env w path msg = None ->
        logger_tools_wide.send env h msg w =
        (Return tt, w ++ [logger_tools.WriteFile path msg]))
    /\ (len msg > 4096 ->
        forall e,
          logger_tools_wide.open_write env w path msg = Some e ->
          isinstance e Exception = true ->
          logger_tools_wide.print_fails env (w ++ [logger_tools.WriteFile path msg]) e = None ->
          logger_tools_wide.send env h msg w =
          (Return tt,
           w ++ [logger_tools.WriteFile path msg; logger_tools.Print (exc_str e)])).
Proof.
  intros env token async msg w h path.
  assert (Hlong : len msg > 4096 ->
            logger_tools_wide.send env h msg w =
            try_except (logger_tools_wide._send_as_document env h msg) (ExcOne Exception)
              (fun x => logger_tools_wide.print env x) w).
  { intros Hlen. unfold logger_tools_wide.send.
    change (logger_tools._MAX_LEN h) with 4096.
    replace (len msg >? 4096) with true
      by (symmetry; rewrite Z.gtb_ltb; apply Z.ltb_lt; lia).
    reflexivity. }
  split; [ | split].
  - intros Hlen. unfold logger_tools_wide.send.
    change (logger_tools._MAX_LEN h) with 4096.
    replace (len msg >? 4096) with false
      by (symmetry; rewrite Z.gtb_ltb; apply Z.ltb_ge; exact Hlen).
    reflexivity.
  - intros Hlen Hw. rewrite (Hlong Hlen).
    apply wide_not_raised.
    unfold logger_tools_wide._send_as_document, bind, logger_tools_wide.uuid4_first_group,
      logger_tools_wide.write_file.
    fold path. rewrite Hw. reflexivity.
  - intros Hlen e Hw He Hp. rewrite (Hlong Hlen).
    rewrite (wide_caught env _ w (w ++ [logger_tools.WriteFile path msg]) e).
    + unfold logger_tools_wide.print. rewrite Hp. now rewrite <- app_assoc.
    + unfold logger_tools_wide._send_as_document, bind, logger_tools_wide.uuid4_first_group,
        logger_tools_wide.write_file.
      fold path. rewrite Hw. reflexivity.
    + exact He.
Qed.

(** A short text, nobody to send it to. *)
Lemma send_without_destinations_witness :
  logger_tools_wide.send scenarios_wide.calm
    (logger_tools.TelegramHandler_init "123:abc" [] false) "lost" [] = (Return tt, []).
Proof.
  apply (proj1 (send_without_destinations scenarios_wide.calm "123:abc" false "lost" [])).
  vm_compute. discriminate.
Defined.

(** A long text, nobody to send it to, and no folder [logs]: the failed
    write and the printed failure are all that happens. *)
Example send_without_destinations_no_folder :
  logger_tools_wide.send scenarios_wide.no_logs_folder
    (logger_tools.TelegramHandler_init "123:abc" [] false) (scenarios.filler 4097) [] =
  (Return tt,
   [logger_tools.WriteFile "logs/1a2b3c4d-logs.txt" (scenarios.filler 4097);
    logger_tools.Print "[Errno 2] No such file or directory"]).
Proof. vm_compute. reflexivity. Qed.

(** X5.  A handler made by the constructor with [run_async] on: [emit]
    renders the record as the level name in brackets, the line number and
    function name, an empty line and the message, and starts one thread
    whose target is [send] with that text; [emit] itself calls nothing on
    the bot, writes no file, prints nothing, and returns normally.  When
    the thread cannot be started, the failure leaves [emit], which has no
    handler of its own. *)
Theorem emit_async_only_starts_a_thread :
  forall (env : logger_tools_wide.Surroundings) (token : string) (ids : list Z)
         (r : logger_tools.LogRecord) (host : logger_tools_rest.Host),
    logger_tools.exc_text r = None ->
    let h := logger_tools.TelegramHandler_init token ids true in
    let text :=
      "[" +:+ logger_tools.levelname r +:+ "]" +:+ logger_tools.newline
      +:+ repr_int (logger_tools.lineno r) +:+ " - " +:+ logger_tools.funcName r +:+ ":"
      +:+ logger_tools.newline +:+ logger_tools.newline +:+ logger_tools.message r in
    let task := logger_tools_rest.Handler_send h text in
    (logger_tools_wide.thread_start_fails env host task = None ->
     logger_tools_wide.emit env h r host =
     (Return tt,
      {| logger_tools_rest.events := logger_tools_rest.events host;
         logger_tools_rest.started := logger_tools_rest.started host ++ [task] |}))
    /\ (forall e,
          logger_tools_wide.thread_start_fails env host task = Some e ->
          logger_tools_wide.emit env h r host = (Raise e, host)).
Proof.
  intros env token ids r host Hx h text task.
  assert (Hf : logger_tools_rest.format h r = Return text).
  { unfold logger_tools_rest.format. rewrite format_without_traceback by exact Hx.
    apply telegram_template_renders. }
  assert (He : logger_tools_wide.emit env h r host =
               logger_tools_wide.Thread_start env task host).
  { unfold logger_tools_wide.emit, bind, logger_tools_rest.returned. rewrite Hf. reflexivity. }
  rewrite He. unfold logger_tools_wide.Thread_start.
  split; [intros -> | intros e ->]; reflexivity.
Qed.

(** An INFO record through an asynchronous handler with two destinations. *)
Lemma emit_async_only_starts_a_thread_witness :
  logger_tools_wide.emit scenarios_wide.flaky
    (logger_tools.TelegramHandler_init "123:abc" [1; 2] true)
    scenarios_rest.info_record scenarios_rest.idle =
  (Return tt,
   {| logger_tools_rest.events := [];
      logger_tools_rest.started :=
        [logger_tools_rest.Handler_send
           (logger_tools.TelegramHandler_init "123:abc" [1; 2] true)
           ("[" +:+ "INFO" +:+ "]" +:+ logger_tools.newline
            +:+ repr_int 12 +:+ " - " +:+ "main" +:+ ":"
            +:+ logger_tools.newline +:+ logger_tools.newline +:+ "[info] - started")] |}).
Proof.
  exact (proj1 (emit_async_only_starts_a_thread scenarios_wide.flaky "123:abc" [1; 2]
                  scenarios_rest.info_record scenarios_rest.idle eq_refl) eq_refl).
Defined.

Section WideBotLoggerFacts.

Import logger_tools logger_tools_rest.

Variable env : logger_tools_wide.Surroundings.

(** The framed text of a [log] call decides what [log] runs. *)
Lemma wide_log_short (b : BotLogger) (msg : string) (f_name : option string)
  (args : list PyVal) (kwargs : kwargs_t) :
  _MAX_LEN b = 4096 ->
  let text :=
    "[" +:+ __name b +:+ "]" +:+ newline +:+ newline +:+ _make_message msg f_name args kwargs in
  len text <= 4096 ->
  logger_tools_wide.BotLogger.log env b msg f_name args kwargs =
  try_except
    (if __run_async b
     then logger_tools_wide.Thread_start env (Bot_send_message b text)
     else on_events (logger_tools_wide.BotLogger._send_message env b text))
    (ExcOne Exception)
    (fun e => on_events (logger_tools_wide.print env e)).
Proof.
  intros Hmax text Hlen. unfold logger_tools_wide.BotLogger.log. cbv zeta. fold text.
  rewrite Hmax.
  replace (len text >? 4096) with false
    by (symmetry; rewrite Z.gtb_ltb; apply Z.ltb_ge; exact Hlen).
  reflexivity.
Qed.

Lemma wide_log_long (b : BotLogger) (msg : string) (f_name : option string)
  (args : list PyVal) (kwargs : kwargs_t) :
  _MAX_LEN b = 4096 ->
  let text :=
    "[" +:+ __name b +:+ "]" +:+ newline +:+ newline +:+ _make_message msg f_name args kwargs in
  len text > 4096 ->
  logger_tools_wide.BotLogger.log env b msg f_name args kwargs =
  try_except
    (if __run_async b
     then logger_tools_wide.Thread_start env (Bot_send_as_document b text)
     else on_events (logger_tools_wide.BotLogger._send_as_document env b text))
    (ExcOne Exception)
    (fun e => on_events (logger_tools_wide.print env e)).
Proof.
  intros Hmax text Hlen. unfold logger_tools_wide.BotLogger.log. cbv zeta. fold text.
  rewrite Hmax.
  replace (len text >? 4096) with true
    by (symmetry; rewrite Z.gtb_ltb; apply Z.ltb_lt; lia).
  reflexivity.
Qed.

(** Starting a thread under the handler of [log]. *)
Lemma wide_log_thread (task : Task) (host : Host) :
  (logger_tools_wide.thread_start_fails env host task = None ->
   try_except (logger_tools_wide.Thread_start env task) (ExcOne Exception)
     (fun e => on_events (logger_tools_wide.print env e)) host =
   (Return tt, {| events := events host; started := started host ++ [task] |}))
  /\ (forall e,
        logger_tools_wide.thread_start_fails env host task = Some e ->
        isinstance e Exception = true ->
        logger_tools_wide.print_fails env (events host) e = None ->
        try_except (logger_tools_wide.Thread_start env task) (ExcOne Exception)
          (fun e => on_events (logger_tools_wide.print env e)) host =
        (Return tt,
         {| events := events host ++ [Print (exc_str e)]; started := started host |})).
Proof.
  unfold try_except, logger_tools_wide.Thread_start. split.
  - intros ->. reflexivity.
  - intros e -> He Hp. simpl. rewrite He.
    unfold on_events, logger_tools_wide.print. now rewrite Hp.
Qed.

End WideBotLoggerFacts.

(** X6.  A [BotLogger] with [run_async] off, called without context
    values.  The text [log] sends is the logger's name in brackets, an
    empty line and the composed message, which is 9 characters plus the
    name and the tag longer than the message itself; so the message goes
    out as messages only while name, tag and message together have at most
    4087 characters, and as a document from there on.  When no call on the
    bot or the file fails, [log] makes exactly the calls of that delivery,
    to every destination in order, starts no thread and returns normally. *)
Theorem bot_log_sync_uses_framed_length :
  forall (env : logger_tools_wide.Surroundings) (name token : string) (ids : list Z)
         (proxy : option string) (msg tag : string) (host : logger_tools_rest.Host),
    let b := logger_tools_rest.BotLogger_init name token ids false proxy in
    let text :=
      "[" +:+ name +:+ "]" +:+ logger_tools.newline +:+ logger_tools.newline
      +:+ logger_tools._make_message msg (Some tag) [] [] in
    let path :=
      "logs/" +:+ logger_tools_wide.uuid4_head env (logger_tools_rest.events host)
      +:+ "-logs.txt" in
    len text = len name + len tag + len msg + 9
    /\ (len name + len tag + len msg <= 4087 ->
        (forall w c, logger_tools_wide.bot_send_message env w c text = None) ->
        logger_tools_wide.BotLogger.log env b msg (Some tag) [] [] host =
        (Return tt,
         {| logger_tools_rest.events :=
              logger_tools_rest.events host ++ logger_tools.message_calls ids text;
            logger_tools_rest.started := logger_tools_rest.started host |}))
    /\ (len name + len tag + len msg > 4087 ->
        logger_tools_wide.open_write env (logger_tools_rest.events host) path text = None ->
        (forall w c, logger_tools_wide.bot_send_document env w c path = None) ->
        logger_tools_wide.BotLogger.log env b msg (Some tag) [] [] host =
        (Return tt,
         {| logger_tools_rest.events :=
              logger_tools_rest.events host
              ++ logger_tools.WriteFile path text :: logger_tools.document_calls ids path;
            logger_tools_rest.started := logger_tools_rest.started host |})).
Proof.
  intros env name token ids proxy msg tag host b text path.
  assert (Hlen : len text = len name + len tag + len msg + 9)
    by apply bot_log_text_length.
  split; [exact Hlen | split].
  - intros Hshort Hbot.
    rewrite (wide_log_short env b msg (Some tag) [] [] eq_refl)
      by (change (logger_tools_rest.__name b) with name; fold text; lia).
    change (logger_tools_rest.__name b) with name. fold text.
    change (logger_tools_rest.__run_async b) with false. cbv iota.
    rewrite on_events_try_except. unfold logger_tools_rest.on_events.
    rewrite (wide_not_raised env _ _
               (logger_tools_rest.events host ++ logger_tools.message_calls ids text));
      [reflexivity | ].
    exact (wide_loop_all (fun w0 c => logger_tools_wide.bot_send_message env w0 c text)
             (fun c => logger_tools.SendMessage c text) ids _ Hbot).
  - intros Hlong Hfile Hbot.
    rewrite (wide_log_long env b msg (Some tag) [] [] eq_refl)
      by (change (logger_tools_rest.__name b) with name; fold text; lia).
    change (logger_tools_rest.__name b) with name. fold text.
    change (logger_tools_rest.__run_async b) with false. cbv iota.
    rewrite on_events_try_except. unfold logger_tools_rest.on_events.
    rewrite (wide_not_raised env _ _
               (logger_tools_rest.events host
                ++ logger_tools.WriteFile path text :: logger_tools.document_calls ids path));
      [reflexivity | ].
    unfold logger_tools_wide.BotLogger._send_as_document, bind,
      logger_tools_wide.uuid4_first_group, logger_tools_wide.write_file.
    fold path. rewrite Hfile. simpl logger_tools_wide.raise_some. unfold ret.
    unfold logger_tools_wide.BotLogger._send_document.
    simpl logger_tools_rest.__chat_ids.
    rewrite (wide_loop_all (fun w0 c => logger_tools_wide.bot_send_document env w0 c path)
               (fun c => logger_tools.SendDocument c path) ids _ Hbot).
    now rewrite <- app_assoc.
Qed.

(** [BotLogger("app", token, [1, 3], run_async=False).log("hello")]. *)
Lemma bot_log_sync_uses_framed_length_witness :
  logger_tools_wide.BotLogger.log scenarios_wide.calm
    (logger_tools_rest.BotLogger_init "app" "123:abc" [1; 3] false None)
    "hello" (Some "log") [] [] scenarios_rest.idle =
  (Return tt,
   {| logger_tools_rest.events :=
        [] ++ logger_tools.message_calls [1; 3]
                ("[" +:+ "app" +:+ "]" +:+ logger_tools.newline +:+ logger_tools.newline
                 +:+ logger_tools._make_message "hello" (Some "log") [] []);
      logger_tools_rest.started := [] |}).
Proof.
  refine (proj1 (proj2
    (bot_log_sync_uses_framed_length scenarios_wide.calm "app" "123:abc" [1; 3] None
       "hello" "log" scenarios_rest.idle)) _ _).
  - vm_compute. discriminate.
  - intros w c. reflexivity.
Defined.

(** X7.  A [BotLogger] with [run_async] on, called without context
    values: [log] calls nothing on the bot; it starts one thread, for the
    bare message delivery of the framed text when that text has at most
    4096 characters and for its bare document delivery otherwise, and
    returns normally; a failure to start the thread that is an instance of
    [Exception] is printed by [log].  The handler of [log] does not cover
    the thread.  Once run, the message delivery either calls the bot for
    every destination in order and returns, or ends in the exception of
    the first call that failed, having called the bot for the destinations
    up to that one; the document delivery either writes the file and sends
    it to every destination, or ends in the failure of the write, or ends
    in the exception of the first send that failed.  In none of these
    cases is anything printed. *)
Theorem bot_log_async_leaves_delivery_uncaught :
  forall (env : logger_tools_wide.Surroundings) (name token : string) (ids : list Z)
         (proxy : option string) (msg : string) (f_name : option string)
         (host : logger_tools_rest.Host),
    let b := logger_tools_rest.BotLogger_init name token ids true proxy in
    let text :=
      "[" +:+ name +:+ "]" +:+ logger_tools.newline +:+ logger_tools.newline
      +:+ logger_tools._make_message msg f_name [] [] in
    let task :=
      if len text >? 4096
      then logger_tools_rest.Bot_send_as_document b text
      else logger_tools_rest.Bot_send_message b text in
    (logger_tools_wide.thread_start_fails env host task = None ->
     logger_tools_wide.BotLogger.log env b msg f_name [] [] host =
     (Return tt,
      {| logger_tools_rest.events := logger_tools_rest.events host;
         logger_tools_rest.started := logger_tools_rest.started host ++ [task] |}))
    /\ (forall e,
          logger_tools_wide.thread_start_fails env host task = Some e ->
          isinstance e Exception = true ->
          logger_tools_wide.print_fails env (logger_tools_rest.events host) e = None ->
          logger_tools_wide.BotLogger.log env b msg f_name [] [] host =
          (Return tt,
           {| logger_tools_rest.events :=
                logger_tools_rest.events host ++ [logger_tools.Print (exc_str e)];
              logger_tools_rest.started := logger_tools_rest.started host |}))
    /\ (len text <= 4096 ->
        forall w,
          logger_tools_wide.run_task env task w =
            (Return tt, w ++ logger_tools.message_calls ids text)
          \/ exists k c e,
               ids !! k = Some c
               /\ logger_tools_wide.bot_send_message env
                    (w ++ logger_tools.message_calls (take k ids) text) c text = Some e
               /\ logger_tools_wide.run_task env task w =
                  (Raise e, w ++ logger_tools.message_calls (take (S k) ids) text))
    /\ (len text > 4096 ->
        forall w,
          let path := "logs/" +:+ logger_tools_wide.uuid4_head env w +:+ "-logs.txt" in
          let written := w ++ [logger_tools.WriteFile path text] in
          (logger_tools_wide.open_write env w path text = None
           /\ logger_tools_wide.run_task env task w =
              (Return tt, written ++ logger_tools.document_calls ids path))
          \/ (exists e,
                logger_tools_wide.open_write env w path text = Some e
                /\ logger_tools_wide.run_task env task w = (Raise e, written))
          \/ (exists k c e,
                ids !! k = Some c
                /\ logger_tools_wide.open_write env w path text = None
                /\ logger_tools_wide.bot_send_document env
                     (written ++ logger_tools.document_calls (take k ids) path) c path = Some e
                /\ logger_tools_wide.run_task env task w =
                   (Raise e, written ++ logger_tools.document_calls (take (S k) ids) path))).
Proof.
  intros env name token ids proxy msg f_name host b text task.
  assert (Hlog : logger_tools_wide.BotLogger.log env b msg f_name [] [] host =
                 try_except (logger_tools_wide.Thread_start env task) (ExcOne Exception)
                   (fun e => logger_tools_rest.on_events (logger_tools_wide.print env e)) host).
  { subst task. destruct (Z_le_gt_dec (len text) 4096) as [Hle|Hgt].
    - rewrite (wide_log_short env b msg f_name [] [] eq_refl)
        by (change (logger_tools_rest.__name b) with name; fold text; exact Hle).
      change (logger_tools_rest.__name b) with name. fold text.
      replace (len text >? 4096) with false
        by (symmetry; rewrite Z.gtb_ltb; apply Z.ltb_ge; exact Hle).
      reflexivity.
    - rewrite (wide_log_long env b msg f_name [] [] eq_refl)
        by (change (logger_tools_rest.__name b) with name; fold text; exact Hgt).
      change (logger_tools_rest.__name b) with name. fold text.
      replace (len text >? 4096) with true
        by (symmetry; rewrite Z.gtb_ltb; apply Z.ltb_lt; lia).
      reflexivity. }
  split; [ | split; [ | split]].
  - intros Hstart. rewrite Hlog. exact (proj1 (wide_log_thread env task host) Hstart).
  - intros e Hstart He Hp. rewrite Hlog.
    exact (proj2 (wide_log_thread env task host) e Hstart He Hp).
  - intros Hle w. subst task.
    replace (len text >? 4096) with false
      by (symmetry; rewrite Z.gtb_ltb; apply Z.ltb_ge; exact Hle).
    exact (wide_message_loop env ids text w).
  - intros Hgt w. subst task.
    replace (len text >? 4096) with true
      by (symmetry; rewrite Z.gtb_ltb; apply Z.ltb_lt; lia).
    exact (wide_document_steps env ids text w).
Qed.

(** An asynchronous [log("hello")]: one thread started, nothing else. *)
Lemma bot_log_async_leaves_delivery_uncaught_witness :
  logger_tools_wide.BotLogger.log scenarios_wide.flaky
    (logger_tools_rest.BotLogger_init "app" "123:abc" [1; 2; 3] true None)
    "hello" (Some "log") [] [] scenarios_rest.idle =
  (Return tt,
   {| logger_tools_rest.events := [];
      logger_tools_rest.started :=
        [logger_tools_rest.Bot_send_message
           (logger_tools_rest.BotLogger_init "app" "123:abc" [1; 2; 3] true None)
           ("[app]" +:+ logger_tools.newline +:+ logger_tools.newline
            +:+ "[log] - hello")] |}).
Proof.
  exact (proj1 (bot_log_async_leaves_delivery_uncaught scenarios_wide.flaky "app" "123:abc"
                  [1; 2; 3] None "hello" (Some "log") scenarios_rest.idle) eq_refl).
Defined.

(** The thread of an asynchronous [log] when chat 2 cannot be reached: it
    ends in the error, and nothing is printed. *)
Example bot_log_async_thread_fails :
  logger_tools_wide.run_task scenarios_wide.flaky
    (logger_tools_rest.Bot_send_message
       (logger_tools_rest.BotLogger_init "app" "123:abc" [1; 2; 3] true None) "hello") [] =
  (Raise (mkExc NetworkError "Timed out"),
   [logger_tools.SendMessage 1 "hello"; logger_tools.SendMessage 2 "hello"]).
Proof. reflexivity. Qed.

(** No thread can be started: [log] prints the failure and returns. *)
Example bot_log_async_cannot_start :
  logger_tools_wide.BotLogger.log scenarios_wide.no_more_threads
    (logger_tools_rest.BotLogger_init "app" "123:abc" [1; 2; 3] true None)
    "hello" (Some "log") [] [] scenarios_rest.idle =
  (Return tt,
   {| logger_tools_rest.events := [logger_tools.Print "can't start new thread"];
      logger_tools_rest.started := [] |}).
Proof. reflexivity. Qed.
